(** * Attendance bot ([bot.py]): ledger, detector, roster partition, reports

    A shallow embedding of the attendance-tracking core of [bot.py].

    - Python [str] is [string]: the text is taken as a sequence of 8-bit
      characters and [str.lower] acts on the letters [A]..[Z] (what Python's
      [lower] does on ASCII text).
    - A user id (Python [int]) is a [Z].
    - [submissions_by_day : dict[str, set[int]]] is a [gmap string (gset Z)].
    - The data file is what [json.load] makes of it: unreadable, some JSON
      value that is no object, or an object whose values are lists of
      integers or scalars.
    - The handlers are written in a state-and-exception monad over a
      [world]: the in-memory ledger, the data file and the trace of the
      effects the handlers issue (channel sends, calls of [save_data], log
      records).  What lies outside the process (the clock, the disk, the
      permission to write in a channel) is read from an [env].
    - Startup ([start_health_server], [on_ready]) runs on a [process]: the
      world together with the flag [_health_started], the sites listening
      on the health port and the names of the asyncio tasks.
    - Left out: the [print] calls, and the colour and the wall-clock
      timestamp of an embed. *)

From stdpp Require Import base gmap sets list strings sorting pretty.
From Stdlib Require Import ZArith Ascii String.

Local Open Scope string_scope.
Local Open Scope Z_scope.

(** ** Python string primitives *)

Module PyStr.

(** [s.startswith(p)] *)
Fixpoint startswith (s p : string) {struct p} : bool :=
  match p, s with
  | EmptyString, _ => true
  | String _ _, EmptyString => false
  | String b p', String a s' => if Ascii.eqb a b then startswith s' p' else false
  end.

(** [s[n:]] for [0 <= n]. *)
Fixpoint drop (n : nat) (s : string) : string :=
  match n, s with
  | O, _ => s
  | S n', String _ s' => drop n' s'
  | S _, EmptyString => EmptyString
  end.

(** [s.endswith(suf)]: the last [len(suf)] characters of [s] are [suf]. *)
Definition endswith (s suf : string) : bool :=
  (String.length suf <=? String.length s)%nat
  && String.eqb (drop (String.length s - String.length suf) s) suf.

(** [s.endswith((e1, e2, ...))]: Python tries the tuple left to right. *)
Definition endswith_any (s : string) (sufs : list string) : bool :=
  existsb (endswith s) sufs.

(** [p in s] (substring test). *)
Fixpoint contains (s p : string) : bool :=
  startswith s p ||
  match s with
  | EmptyString => false
  | String _ s' => contains s' p
  end.

(** [c.lower()] on one character: [A]..[Z] (65..90) move to [a]..[z].  The
    other characters, the bytes of non-ASCII letters among them, stay as
    they are: the model lowers the ASCII letters only, which is all the
    detector's ASCII keywords can tell. *)
Definition lower_ascii (c : ascii) : ascii :=
  let n := nat_of_ascii c in
  if ((65 <=? n) && (n <=? 90))%nat then ascii_of_nat (n + 32) else c.

(** [s.lower()] *)
Fixpoint lower (s : string) : string :=
  match s with
  | EmptyString => EmptyString
  | String c s' => String (lower_ascii c) (lower s')
  end.

(** [bool(s)]: a string is truthy when it is not empty. *)
Definition truthy (s : string) : bool :=
  match s with EmptyString => false | _ => true end.

(** [sep.join(parts)] *)
Fixpoint join (sep : string) (parts : list string) : string :=
  match parts with
  | [] => EmptyString
  | [x] => x
  | x :: rest => x ++ sep ++ join sep rest
  end.

End PyStr.

(** ** The submission detector ([on_message], lines 163-184) *)

Record attachment := { filename : string }.

Record user := { user_id : Z; user_name : string; mention : string }.

Record message := {
  author : user;
  channel : Z;              (* message.channel.id *)
  content : string;
  attachments : list attachment
}.

Definition spreadsheet_extensions : list string :=
  [".xlsx"; ".xls"; ".csv"; ".ods"].

Definition google_sheets_keywords : list string :=
  ["docs.google.com/spreadsheets"; "sheets.google.com"; "drive.google.com"].

(** The [for attachment in message.attachments] loop with its [break]. *)
Fixpoint attachment_detected (atts : list attachment) : bool :=
  match atts with
  | [] => false
  | a :: rest =>
      if PyStr.endswith_any (filename a) spreadsheet_extensions then true
      else attachment_detected rest
  end.

(** The [for keyword in google_sheets_keywords] loop with its [break]. *)
Fixpoint keyword_detected (text : string) (keywords : list string) : bool :=
  match keywords with
  | [] => false
  | kw :: rest =>
      if PyStr.contains (PyStr.lower text) kw then true
      else keyword_detected text rest
  end.

(** The value of [spreadsheet_detected] when line 187 tests it. *)
Definition spreadsheet_detected (m : message) : bool :=
  let detected := attachment_detected (attachments m) in
  if negb detected && PyStr.truthy (content m)
  then keyword_detected (content m) google_sheets_keywords
  else detected.


(** ** Python dictionaries and sets, as the handlers use them *)

(** [d.setdefault(k, default)], the dictionary afterwards: an existing entry
    is kept, a missing one is created. *)
Definition dict_setdefault {V} (k : string) (default : V) (d : gmap string V)
  : gmap string V :=
  match d !! k with
  | Some _ => d
  | None => <[k := default]> d
  end.

(** [d.get(k, set())] *)
Definition dict_get (k : string) (d : gmap string (gset Z)) : gset Z :=
  default ∅ (d !! k).

(** [d[k].add(x)]: the set object stored under [k] is mutated in place. *)
Definition set_add_at (k : string) (x : Z) (d : gmap string (gset Z))
  : gmap string (gset Z) :=
  alter (λ s, s ∪ {[x]}) k d.

(** [sorted(s)] on a set of integers. *)
Definition sorted (s : gset Z) : list Z := merge_sort Z.le (elements s).

(** ** The world the handlers run in *)

(** A value of the JSON object in the data file, as [set(v)] sees it: an
    array of integers, or a scalar, by which is meant a number, [true],
    [false] or [null], the values on which [set(v)] raises [TypeError].
    These are the data files the model covers.  A string, an object or an
    array with an element that is no integer is not a [jvalue]: [set(v)]
    accepts it and stores a set that is no [set[int]], so such a file takes
    the ledger out of [dict[str, set[int]]], and nothing is stated here
    about it. *)
Inductive jvalue :=
  | JInts (ids : list Z)
  | JScalar.

(** What [json.load] makes of the data file. *)
Inductive file_content :=
  | Unparsable                                   (* json.load raises *)
  | NotAnObject                                  (* valid JSON, no .items() *)
  | JObject (items : list (string * jvalue)).    (* raw.items(), in order *)

Inductive payload :=
  | Text (s : string)
  | Embed (title description footer : string).

Inductive log_record :=
  | LogLoaded (days : nat)
  | LogLoadFailed
  | LogSaveFailed
  | LogDateChanged (old new : string)
  | LogHeartbeat (day : string) (submissions_today : nat) (channel_resolved : bool).

(** Effects issued by the handlers, oldest first. *)
Inductive event :=
  | Send (chan : Z) (p : payload)      (* a call of channel.send / ctx.send *)
  | Save                               (* a call of save_data *)
  | Logged (r : log_record).           (* a call of logging.info / .exception *)

Record world := {
  submissions_by_day : gmap string (gset Z);
  data_file : option file_content;     (* None: os.path.isfile is false *)
  trace : list event
}.

Inductive io_outcome := IoOk | IoOpenError | IoWriteError.
Inductive send_outcome := SendOk | SendForbidden | SendHTTPError.

(** What the handlers read from outside during one run. *)
Record env := {
  CHANNEL_ID : Z;
  bot_user : Z;                        (* bot.user.id *)
  _today_key : string;                 (* date.today().isoformat() *)
  disk : io_outcome;                   (* how open/json.dump end in save_data *)
  send_result : Z → send_outcome;      (* how a send to a channel ends *)
  channel_resolved : bool              (* bot.get_channel(CHANNEL_ID) is not None *)
}.

(** *** State and exceptions *)

Inductive exn := Forbidden | HTTPException.

Inductive outcome (A : Type) :=
  | Returned (a : A)
  | Raised (e : exn).
Arguments Returned {A} a.
Arguments Raised {A} e.

Definition M (A : Type) : Type := world → outcome A * world.

Definition ret {A} (a : A) : M A := λ w, (Returned a, w).

Definition bind {A B} (c : M A) (k : A → M B) : M B :=
  λ w, match c w with
       | (Returned a, w') => k a w'
       | (Raised e, w') => (Raised e, w')
       end.

Declare Scope handler_scope.
Delimit Scope handler_scope with handler.
Notation "'let*' x := c 'in' k" := (bind c (λ x, k))
  (at level 10, x name, c at level 100, k at level 200) : handler_scope.
Notation "c ;; k" := (bind c (λ _, k))
  (at level 100, k at level 200, right associativity) : handler_scope.
Local Open Scope handler_scope.

Definition raise {A} (e : exn) : M A := λ w, (Raised e, w).

Definition get_ledger : M (gmap string (gset Z)) :=
  λ w, (Returned (submissions_by_day w), w).

Definition modify_ledger (f : gmap string (gset Z) → gmap string (gset Z)) : M unit :=
  λ w, (Returned tt,
        {| submissions_by_day := f (submissions_by_day w);
           data_file := data_file w; trace := trace w |}).

Definition write_file (c : file_content) : M unit :=
  λ w, (Returned tt,
        {| submissions_by_day := submissions_by_day w;
           data_file := Some c; trace := trace w |}).

Definition emit (ev : event) : M unit :=
  λ w, (Returned tt,
        {| submissions_by_day := submissions_by_day w;
           data_file := data_file w; trace := trace w ++ [ev] |}).

(** [await channel.send(...)] *)
Definition send (e : env) (chan : Z) (p : payload) : M unit :=
  emit (Send chan p) ;;
  match send_result e chan with
  | SendOk => ret tt
  | SendForbidden => raise Forbidden
  | SendHTTPError => raise HTTPException
  end.

(** [try: c except discord.Forbidden: print(...)] *)
Definition except_forbidden (c : M unit) : M unit :=
  λ w, match c w with
       | (Raised Forbidden, w') => (Returned tt, w')
       | r => r
       end.

(** ** Ledger store ([load_data], [save_data]) *)

(** [{k: sorted(list(v)) for k, v in submissions_by_day.items()}]: the
    model keeps no insertion order, the entries come in the order of
    [map_to_list]. *)
Definition serializable (d : gmap string (gset Z)) : list (string * jvalue) :=
  (λ kv, (kv.1, JInts (sorted kv.2))) <$> map_to_list d.

(** [save_data()].  Nothing escapes the [try]: a failing [open] leaves the
    file as it was, a failure while [json.dump] writes leaves a truncated
    file behind. *)
Definition save_data (e : env) : M unit :=
  emit Save ;;
  let* d := get_ledger in
  match disk e with
  | IoOk => write_file (JObject (serializable d))
  | IoOpenError => emit (Logged LogSaveFailed)
  | IoWriteError => write_file Unparsable ;; emit (Logged LogSaveFailed)
  end.

(** The loop [for k, v in raw.items(): submissions_by_day[k] = set(v)] and
    the [logging.info] after it; [set(v)] on a scalar (a number, [true],
    [false], [null]) raises, which ends the [try] body with the entries
    stored so far left in place. *)
Fixpoint load_items (items : list (string * jvalue)) : M unit :=
  match items with
  | [] =>
      let* d := get_ledger in
      emit (Logged (LogLoaded (size d)))
  | (k, JInts ids) :: rest =>
      modify_ledger (<[k := list_to_set ids]>) ;;
      load_items rest
  | (k, JScalar) :: _ => emit (Logged LogLoadFailed)
  end.

(** [load_data()] *)
Definition load_data : M unit :=
  λ w, match data_file w with
       | None => ret tt w
       | Some Unparsable => emit (Logged LogLoadFailed) w
       | Some NotAnObject => emit (Logged LogLoadFailed) w
       | Some (JObject items) => load_items items w
       end.

(** The end of [on_ready] (lines 141-144). *)
Definition on_ready_load (e : env) : M unit :=
  load_data ;;
  modify_ledger (dict_setdefault (_today_key e) ∅).

(** ** Heartbeat ([_heartbeat]) *)

(** One iteration of the [while True] body, after the sleep; the result is
    the value of [last_day] for the next iteration.  No call in the body
    raises, so the [except] branch is never taken. *)
Definition heartbeat_tick (e : env) (last_day : string) : M string :=
  let current := _today_key e in
  let* last_day' :=
    (if decide (current ≠ last_day) then
       emit (Logged (LogDateChanged last_day current)) ;;
       modify_ledger (dict_setdefault current ∅) ;;
       save_data e ;;
       ret current
     else ret last_day) in
  let* d := get_ledger in
  emit (Logged (LogHeartbeat current (size (dict_get current d)) (channel_resolved e))) ;;
  ret last_day'.

(** The loop, run over the clock readings of its successive iterations;
    [start] is the reading taken before the loop. *)
Fixpoint heartbeat_loop (ticks : list env) (last_day : string) : M string :=
  match ticks with
  | [] => ret last_day
  | e :: rest =>
      let* last_day' := heartbeat_tick e last_day in
      heartbeat_loop rest last_day'
  end.

Definition _heartbeat (start : env) (ticks : list env) : M string :=
  heartbeat_loop ticks (_today_key start).

(** ** Roster partition ([_get_today_sets]) *)

Record member := { member_id : Z; bot : bool; display_name : string }.

(** The part of [discord.Guild] the handlers use: [guild.members] and
    [guild.get_member(uid)]. *)
Record guild := {
  members : list member;
  get_member : Z → option member
}.

(** [{m.id for m in guild.members if not m.bot}] *)
Definition member_ids (g : guild) : gset Z :=
  list_to_set (member_id <$> List.filter (λ m, negb (bot m)) (members g)).

Definition _get_today_sets (e : env) (d : gmap string (gset Z)) (g : guild)
  : gset Z * gset Z :=
  let today_ids := dict_get (_today_key e) d in
  let submitted := today_ids ∩ member_ids g in
  let not_submitted := member_ids g ∖ submitted in
  (submitted, not_submitted).

(** ** Report commands *)

Record context := {
  ctx_channel : Z;                     (* ctx.channel.id *)
  ctx_guild : guild;
  ctx_administrator : bool             (* ctx.author.guild_permissions.administrator *)
}.

Definition newline : string := String (ascii_of_nat 10) EmptyString.

(** [f"{prefix}{user.display_name if user else uid}"] *)
Definition name_or_id (g : guild) (uid : Z) : string :=
  match get_member g uid with
  | Some u => display_name u
  | None => pretty uid
  end.

(** The [lines] of [report_submissions] and of [report_not_submitted]. *)
Definition report_lines (mark : string) (g : guild) (ids : gset Z) : list string :=
  (λ uid, mark ++ name_or_id g uid) <$> sorted ids.

(** The generator of [daily_report]: only the ids that [get_member] finds
    give a line. *)
Definition resolved_lines (mark : string) (g : guild) (ids : gset Z) : list string :=
  omap (λ uid, (λ u, mark ++ display_name u) <$> get_member g uid) (sorted ids).

Definition submitted_embed (g : guild) (submitted : gset Z) : payload :=
  Embed "📊 Submitted Today"
        (PyStr.join newline (report_lines "✅ " g submitted))
        ("Total submitted: " ++ pretty (size submitted)).

Definition not_submitted_embed (g : guild) (submitted not_submitted : gset Z) : payload :=
  Embed "🕒 Not Yet Submitted Today"
        (PyStr.join newline (report_lines "❌ " g not_submitted))
        ("Pending: " ++ pretty (size not_submitted)
         ++ " | Submitted: " ++ pretty (size submitted)).

Definition daily_desc_parts (g : guild) (submitted not_submitted : gset Z) : list string :=
  [ if decide (submitted = ∅) then "No submissions yet."
    else "**Submitted:**" ++ newline
         ++ PyStr.join newline (resolved_lines "✅ " g submitted);
    if decide (not_submitted = ∅) then newline ++ "Everyone has submitted ✅"
    else newline ++ "**Not Submitted:**" ++ newline
         ++ PyStr.join newline (resolved_lines "❌ " g not_submitted) ].

Definition daily_embed (e : env) (g : guild) (submitted not_submitted : gset Z) : payload :=
  Embed ("Daily Report – " ++ _today_key e)
        (PyStr.join newline (daily_desc_parts g submitted not_submitted))
        ("Submitted: " ++ pretty (size submitted)
         ++ " | Pending: " ++ pretty (size not_submitted)
         ++ " | Total: " ++ pretty (size submitted + size not_submitted)%nat).

Definition report_submissions (e : env) (ctx : context) : M unit :=
  if decide (ctx_channel ctx ≠ CHANNEL_ID e) then ret tt
  else
    let* d := get_ledger in
    let submitted := (_get_today_sets e d (ctx_guild ctx)).1 in
    if decide (submitted = ∅) then
      send e (ctx_channel ctx) (Text "❌ No submissions received today.")
    else
      send e (ctx_channel ctx) (submitted_embed (ctx_guild ctx) submitted).

Definition report_not_submitted (e : env) (ctx : context) : M unit :=
  if decide (ctx_channel ctx ≠ CHANNEL_ID e) then ret tt
  else
    let* d := get_ledger in
    let sets := _get_today_sets e d (ctx_guild ctx) in
    if decide (sets.2 = ∅) then
      send e (ctx_channel ctx) (Text "✅ Everyone has submitted today!")
    else
      send e (ctx_channel ctx) (not_submitted_embed (ctx_guild ctx) sets.1 sets.2).

Definition daily_report (e : env) (ctx : context) : M unit :=
  if decide (ctx_channel ctx ≠ CHANNEL_ID e) then ret tt
  else
    let* d := get_ledger in
    let sets := _get_today_sets e d (ctx_guild ctx) in
    send e (ctx_channel ctx) (daily_embed e (ctx_guild ctx) sets.1 sets.2).

(** ** Admin clear ([clear_submissions]) *)

Definition denial : payload :=
  Text "❌ You need administrator permissions to clear submissions.".

Definition clear_submissions (e : env) (ctx : context) : M unit :=
  if decide (ctx_channel ctx ≠ CHANNEL_ID e) then ret tt
  else if negb (ctx_administrator ctx) then
    send e (ctx_channel ctx) denial
  else
    modify_ledger (<[_today_key e := ∅]>) ;;
    save_data e ;;
    send e (ctx_channel ctx) (Text "🗑️ Cleared today's submission list.").

(** ** Message handler ([on_message]) *)

(** [submissions_by_day.setdefault(day, set()).add(uid)], the dictionary
    afterwards. *)
Definition record (day : string) (uid : Z) (d : gmap string (gset Z))
  : gmap string (gset Z) :=
  set_add_at day uid (dict_setdefault day ∅ d).

(** Lines 188-191: the submission is recorded under today's key and the
    ledger is saved. *)
Definition record_submission (e : env) (uid : Z) : M unit :=
  let today_key := _today_key e in
  modify_ledger (record today_key uid) ;;
  save_data e.

(** A run of [record] calls, oldest first. *)
Definition record_all (ops : list (string * Z)) (d : gmap string (gset Z))
  : gmap string (gset Z) :=
  foldl (λ acc op, record op.1 op.2 acc) d ops.

(** [on_message(message)]; [process_commands] stands for
    [bot.process_commands(message)], the command dispatch of discord.py. *)
Definition on_message (e : env) (process_commands : M unit) (m : message) : M unit :=
  if decide (user_id (author m) = bot_user e) then ret tt
  else
    (if PyStr.startswith (content m) "!test" then
       send e (channel m)
            (Text ("🤖 Bot is working! Channel ID: " ++ pretty (channel m)))
     else ret tt) ;;
    (if spreadsheet_detected m then
       record_submission e (user_id (author m)) ;;
       except_forbidden
         (send e (channel m)
               (Text ("✅ Spreadsheet received from " ++ mention (author m))))
     else ret tt) ;;
    process_commands.

(** ** Startup ([start_health_server], [on_ready]) *)

(** The [logging] calls of [on_ready] and [start_health_server]. *)
Inductive startup_record :=
  | LogTokenMissing
  | LogChannelIdInvalid
  | LogHealthStarted.

(** The process around the ledger: the flag [_health_started], the sites
    listening on the health port, the names of the unfinished asyncio tasks
    and what startup has logged. *)
Record process := {
  proc_world : world;
  _health_started : bool;
  health_sites : nat;
  tasks : list string;
  startup_log : list startup_record
}.

Record startup_env := {
  startup_base : env;
  token_set : bool;                    (* TOKEN is truthy *)
  site_starts : bool                   (* the aiohttp import, runner.setup()
                                          and site.start() go through *)
}.

(** A coroutine of the startup either runs to its end or is left by an
    exception. *)
Inductive completion := Completed | Aborted.

Definition with_world (w : world) (p : process) : process :=
  {| proc_world := w; _health_started := _health_started p;
     health_sites := health_sites p; tasks := tasks p;
     startup_log := startup_log p |}.

(** [start_health_server()]: the flag is set before anything that can
    fail. *)
Definition start_health_server (se : startup_env) (p : process)
  : completion * process :=
  if _health_started p then (Completed, p)
  else if site_starts se then
    (Completed,
     {| proc_world := proc_world p; _health_started := true;
        health_sites := S (health_sites p); tasks := tasks p;
        startup_log := startup_log p ++ [LogHealthStarted] |})
  else
    (Aborted,
     {| proc_world := proc_world p; _health_started := true;
        health_sites := health_sites p; tasks := tasks p;
        startup_log := startup_log p |}).

Definition diagnostic : payload :=
  Text "👋 Bot online (diagnostic message). If you see this, messages should work.".

(** Lines 130-139: the one-time test message; both [except] clauses end in
    a [print], so no failure of the send leaves the [try]. *)
Definition diagnostic_send (e : env) (w : world) : world :=
  if channel_resolved e then (send e (CHANNEL_ID e) diagnostic w).2 else w.

(** [on_ready()] *)
Definition on_ready (se : startup_env) (p : process) : completion * process :=
  let e := startup_base se in
  let logged : list startup_record :=
    ((if token_set se then [] else [LogTokenMissing])
     ++ (if decide (CHANNEL_ID e = 0) then [LogChannelIdInvalid] else []))%list in
  let spawned : list string :=
    if decide ("heartbeat" ∈ tasks p) then tasks p
    else (tasks p ++ ["heartbeat"])%list in
  let p1 :=
    {| proc_world := proc_world p; _health_started := _health_started p;
       health_sites := health_sites p; tasks := spawned;
       startup_log := startup_log p ++ logged |} in
  match start_health_server se p1 with
  | (Aborted, p2) => (Aborted, p2)
  | (Completed, p2) =>
      match on_ready_load e (diagnostic_send e (proc_world p2)) with
      | (Returned _, w) => (Completed, with_world w p2)
      | (Raised _, w) => (Aborted, with_world w p2)
      end
  end.

(** [on_ready] fires again on every reconnect: the runs of a session, oldest
    first, an aborted run not stopping the later ones. *)
Definition on_ready_all (runs : list startup_env) (p : process) : process :=
  foldl (λ acc se, (on_ready se acc).2) p runs.

(** ** The file agrees with the ledger *)

(** The data file holds exactly what [save_data] would write now. *)
Definition synced (w : world) : Prop :=
  data_file w = Some (JObject (serializable (submissions_by_day w))).

(** ** Whether a message gets as far as line 190 *)

(** The handler records the author when the message is not the bot's own,
    the reply to a [!test] probe (if the text starts with one) does not
    raise, and the detector accepts the message. *)
Definition reaches_record (e : env) (m : message) : bool :=
  negb (bool_decide (user_id (author m) = bot_user e))
  && (negb (PyStr.startswith (content m) "!test")
      || match send_result e (channel m) with SendOk => true | _ => false end)
  && spreadsheet_detected m.

(** ** Notions of the specification *)

(** [suf] is a suffix of [s], character for character. *)
Definition is_suffix (suf s : string) : Prop := ∃ p, s = p ++ suf.

(** The capital letters and, place by place, their small letters. *)
Definition capitals : string := "ABCDEFGHIJKLMNOPQRSTUVWXYZ".
Definition smalls : string := "abcdefghijklmnopqrstuvwxyz".

(** [u] stands in [us] at the place where [l] stands in [ls]. *)
Fixpoint paired_in (us ls : string) (u l : ascii) : bool :=
  match us, ls with
  | String u' us', String l' ls' =>
      (Ascii.eqb u u' && Ascii.eqb l l') || paired_in us' ls' u l
  | _, _ => false
  end.

(** [u] is a capital letter and [l] is its small letter. *)
Definition capital_of (u l : ascii) : bool := paired_in capitals smalls u l.

(** Two characters are the same up to case: they are equal, or one is a
    capital letter and the other its small letter. *)
Definition same_letter (a b : ascii) : bool :=
  Ascii.eqb a b || capital_of a b || capital_of b a.

(** Two texts are the same up to case: equally long and, place by place,
    the same character up to case. *)
Fixpoint caseless (s t : string) : bool :=
  match s, t with
  | EmptyString, EmptyString => true
  | String a s', String b t' => same_letter a b && caseless s' t'
  | _, _ => false
  end.

(** No character of [s] is a capital letter. *)
Fixpoint no_capital (s : string) : bool :=
  match s with
  | EmptyString => true
  | String c s' => negb (PyStr.contains capitals (String c EmptyString)) && no_capital s'
  end.

(** [s] contains [kw] case-insensitively: some stretch of [s] is [kw] up to
    the case of its letters. *)
Definition contains_nocase (s kw : string) : Prop :=
  ∃ a mid b, s = a ++ mid ++ b ∧ caseless mid kw = true.

(** [text] shows [lines] one per line: the lines in their order, with a
    line feed (character 10) between one line and the next. *)
Inductive one_per_line : list string → string → Prop :=
  | no_line : one_per_line [] EmptyString
  | last_line (l : string) : one_per_line [l] l
  | more_lines (l l' : string) (rest : list string) (text : string) :
      one_per_line (l' :: rest) text →
      one_per_line (l :: l' :: rest) (l ++ String "010"%char text).

(** Every character there is, for proofs by enumeration. *)
Definition all_ascii : list ascii := ascii_of_nat <$> seq 0 256.

(** ** What [load_data] stores *)

(** The entries of a JSON object that come before its first scalar, which
    is as far as the loop of [load_data] gets. *)
Fixpoint list_prefix (items : list (string * jvalue)) : list (string * list Z) :=
  match items with
  | (k, JInts ids) :: rest => (k, ids) :: list_prefix rest
  | _ => []
  end.

Definition is_list (v : jvalue) : bool :=
  match v with JInts _ => true | JScalar => false end.

(** Every value of the object is a list of integers (none is a scalar). *)
Definition all_lists (items : list (string * jvalue)) : bool :=
  forallb (λ kv, is_list kv.2) items.

(** The dictionary after [d[k] = set(v)] for each entry in turn. *)
Definition store_all (entries : list (string * list Z)) (d : gmap string (gset Z))
  : gmap string (gset Z) :=
  foldl (λ acc kv, <[kv.1 := list_to_set kv.2]> acc) d entries.


(** ** Sample inputs *)

Module Sample.

Definition alice : user := {| user_id := 7; user_name := "alice"; mention := "<@7>" |}.

Definition empty_guild : guild := {| members := []; get_member := λ _, None |}.

(** A clock reading on 2 January 2024; every send succeeds. *)
Definition jan2 : env :=
  {| CHANNEL_ID := 10; bot_user := 99; _today_key := "2024-01-02";
     disk := IoOk; send_result := λ _, SendOk; channel_resolved := true |}.

(** The same, in a place where the bot may read but not write. *)
Definition jan2_muted : env :=
  {| CHANNEL_ID := 10; bot_user := 99; _today_key := "2024-01-02";
     disk := IoOk; send_result := λ _, SendForbidden; channel_resolved := true |}.

(** The ledger of 1 January, saved, nothing else yet. *)
Definition after_jan1 : world :=
  {| submissions_by_day := {[ "2024-01-01" := {[1; 2]} ]};
     data_file := Some (JObject [("2024-01-01", JInts [1; 2])]);
     trace := [] |}.

(** Today's set holds 5, 6, 7; yesterday's holds 1, 2. *)
Definition busy_day : world :=
  {| submissions_by_day :=
       {[ "2024-01-01" := {[1; 2]}; "2024-01-02" := {[5; 6; 7]} ]};
     data_file := None;
     trace := [] |}.

(** A spreadsheet posted in channel 55, which is not the target channel. *)
Definition csv_message : message :=
  {| author := alice; channel := 55; content := EmptyString;
     attachments := [ {| filename := "week1.csv" |} ] |}.

(** A link posted together with the [!test] probe. *)
Definition test_link_message : message :=
  {| author := alice; channel := 55;
     content := "!test https://drive.google.com/file/d/abc";
     attachments := [] |}.

Definition admin_ctx : context :=
  {| ctx_channel := 10; ctx_guild := empty_guild; ctx_administrator := true |}.

Definition plain_ctx : context :=
  {| ctx_channel := 10; ctx_guild := empty_guild; ctx_administrator := false |}.


(** A guild of three people; the roster lookup no longer finds number 3. *)
Definition team : guild :=
  {| members := [ {| member_id := 1; bot := false; display_name := "Alice" |};
                  {| member_id := 2; bot := false; display_name := "Bob" |};
                  {| member_id := 3; bot := false; display_name := "Carol" |};
                  {| member_id := 99; bot := true; display_name := "Tracker" |} ];
     get_member := λ uid,
       if decide (uid = 1)
       then Some {| member_id := 1; bot := false; display_name := "Alice" |}
       else if decide (uid = 2)
       then Some {| member_id := 2; bot := false; display_name := "Bob" |}
       else None |}.

Definition team_ctx : context :=
  {| ctx_channel := 10; ctx_guild := team; ctx_administrator := false |}.

(** Today, 2 January, number 1 and number 3 have submitted. *)
Definition two_in : world :=
  {| submissions_by_day := {[ "2024-01-02" := {[1; 3]} ]};
     data_file := None;
     trace := [] |}.

End Sample.

(** ** Facts about the string primitives *)

Section string_facts.
Implicit Types s p suf a b : string.

Lemma app_nil s : EmptyString ++ s = s.
Proof. reflexivity. Qed.

Lemma app_cons c a s : String c a ++ s = String c (a ++ s).
Proof. reflexivity. Qed.

Lemma length_app a b :
  String.length (a ++ b) = (String.length a + String.length b)%nat.
Proof.
  induction a as [|c a IH]; [done|].
  rewrite app_cons. simpl. by rewrite IH.
Qed.

Lemma startswith_spec s p : PyStr.startswith s p = true ↔ ∃ r, s = p ++ r.
Proof.
  revert s. induction p as [|b p IH]; intros s; simpl.
  - split; [intros _; by exists s | done].
  - destruct s as [|a s].
    + split; [done | intros [r Hr]; discriminate].
    + setoid_rewrite app_cons. destruct (Ascii.eqb_spec a b) as [->|Hne].
      * rewrite IH. split; intros [r Hr]; exists r; congruence.
      * split; [done | intros [r Hr]; congruence].
Qed.

Lemma drop_split n s : ∃ p, s = p ++ PyStr.drop n s.
Proof.
  revert s. induction n as [|n IH]; intros s.
  - by exists EmptyString.
  - destruct s as [|c s]; simpl.
    + by exists EmptyString.
    + destruct (IH s) as [p Hp]. exists (String c p).
      rewrite app_cons. by rewrite <- Hp.
Qed.

Lemma drop_app_length p s : PyStr.drop (String.length p) (p ++ s) = s.
Proof.
  induction p as [|c p IH]; [by destruct s|].
  rewrite app_cons. simpl. done.
Qed.

Lemma endswith_spec s suf : PyStr.endswith s suf = true ↔ is_suffix suf s.
Proof.
  unfold PyStr.endswith, is_suffix. rewrite andb_true_iff, String.eqb_eq.
  split.
  - intros [_ Hd]. destruct (drop_split (String.length s - String.length suf) s)
      as [p Hp]. exists p. by rewrite Hd in Hp.
  - intros [p ->]. rewrite length_app. split.
    + apply Nat.leb_le. lia.
    + replace (String.length p + String.length suf - String.length suf)%nat
        with (String.length p) by lia.
      apply drop_app_length.
Qed.

Lemma endswith_any_spec s sufs :
  PyStr.endswith_any s sufs = true ↔ ∃ suf, suf ∈ sufs ∧ is_suffix suf s.
Proof.
  unfold PyStr.endswith_any. rewrite existsb_exists.
  setoid_rewrite endswith_spec. setoid_rewrite <- list_elem_of_In. done.
Qed.

Lemma contains_spec s p : PyStr.contains s p = true ↔ ∃ a b, s = a ++ p ++ b.
Proof.
  induction s as [|c s IH]; simpl; rewrite orb_true_iff, startswith_spec.
  - split.
    + intros [[r Hr]|?]; [|done]. by exists EmptyString, r.
    + intros ([|? a] & b & Hab); [|discriminate]. left. by exists b.
  - rewrite IH. split.
    + intros [[r Hr]|(a & b & ->)].
      * by exists EmptyString, r.
      * by exists (String c a), b.
    + intros ([|c' a] & b & Hab).
      * left. by exists b.
      * right. exists a, b. rewrite app_cons in Hab. congruence.
Qed.

Lemma lower_app a b : PyStr.lower (a ++ b) = PyStr.lower a ++ PyStr.lower b.
Proof.
  induction a as [|c a IH]; [done|].
  rewrite app_cons. simpl. by rewrite IH.
Qed.

Lemma lower_app_inv s x y :
  PyStr.lower s = x ++ y →
  ∃ a b, s = a ++ b ∧ PyStr.lower a = x ∧ PyStr.lower b = y.
Proof.
  revert s. induction x as [|c x IH]; intros s Hs.
  - by exists EmptyString, s.
  - rewrite app_cons in Hs. destruct s as [|d s]; simpl in Hs; [discriminate|].
    injection Hs as Hc Hs. destruct (IH s Hs) as (a & b & -> & Ha & Hb).
    exists (String d a), b. simpl. by rewrite Hc, Ha.
Qed.

Lemma all_ascii_complete (c : ascii) : c ∈ all_ascii.
Proof.
  unfold all_ascii. apply list_elem_of_fmap. exists (nat_of_ascii c). split.
  - symmetry. apply ascii_nat_embedding.
  - apply elem_of_seq. pose proof (nat_ascii_bounded c). lia.
Qed.

(** A property of two characters that a computation confirms for all of
    them holds of any two. *)
Lemma by_enumeration (P : ascii → ascii → bool) :
  forallb (λ c, forallb (P c) all_ascii) all_ascii = true → ∀ c k, P c k = true.
Proof.
  intros Hall c k. rewrite forallb_forall in Hall.
  specialize (Hall c). rewrite <- list_elem_of_In in Hall.
  specialize (Hall (all_ascii_complete c)). rewrite forallb_forall in Hall.
  apply Hall. rewrite <- list_elem_of_In. apply all_ascii_complete.
Qed.

(** Lowering a character gives [k], which is no capital, exactly when the
    character is [k] up to case. *)
Lemma lower_ascii_same_letter (c k : ascii) :
  no_capital (String k EmptyString) = true →
  Ascii.eqb (PyStr.lower_ascii c) k = same_letter c k.
Proof.
  intros Hk.
  pose proof (by_enumeration
    (λ c k, implb (no_capital (String k EmptyString))
                  (Bool.eqb (Ascii.eqb (PyStr.lower_ascii c) k) (same_letter c k)))) as H.
  specialize (H ltac:(vm_compute; reflexivity) c k). cbv beta in H.
  rewrite Hk in H. simpl in H. by apply Bool.eqb_prop in H.
Qed.

(** Two characters that are the same up to case are lowered alike. *)
Lemma same_letter_lower (a b : ascii) :
  same_letter a b = true → PyStr.lower_ascii a = PyStr.lower_ascii b.
Proof.
  intros Hab.
  pose proof (by_enumeration
    (λ x y, implb (same_letter x y)
                  (Ascii.eqb (PyStr.lower_ascii x) (PyStr.lower_ascii y)))) as H.
  specialize (H ltac:(vm_compute; reflexivity) a b). cbv beta in H.
  rewrite Hab in H. simpl in H. by apply Ascii.eqb_eq in H.
Qed.

Lemma no_capital_cons (k : ascii) (kw : string) :
  no_capital (String k kw) = true →
  no_capital (String k EmptyString) = true ∧ no_capital kw = true.
Proof.
  cbn [no_capital]. rewrite !andb_true_iff. tauto.
Qed.

(** Lowering a text gives [kw], which has no capital, exactly when the text
    is [kw] up to case. *)
Lemma lower_caseless mid kw :
  no_capital kw = true → PyStr.lower mid = kw ↔ caseless mid kw = true.
Proof.
  revert kw. induction mid as [|c mid IH]; intros [|k kw] Hkw;
    cbn [PyStr.lower caseless]; try (split; discriminate); [done|].
  apply no_capital_cons in Hkw as [Hk Hkw].
  rewrite andb_true_iff, <- (IH kw Hkw), <- (lower_ascii_same_letter c k Hk).
  rewrite Ascii.eqb_eq. split; [intros [= -> ->]; done | intros [-> ->]; done].
Qed.

(** Texts that are the same up to case are lowered alike. *)
Lemma caseless_lower s1 s2 :
  caseless s1 s2 = true → PyStr.lower s1 = PyStr.lower s2.
Proof.
  revert s2. induction s1 as [|a s1 IH]; intros [|b s2]; cbn [caseless PyStr.lower];
    try done.
  rewrite andb_true_iff. intros [Hab Hrest].
  by rewrite (same_letter_lower a b Hab), (IH s2 Hrest).
Qed.

(** [kw in text.lower()], for a [kw] without capitals, is containment up to
    case. *)
Lemma contains_lower_spec s kw :
  no_capital kw = true →
  PyStr.contains (PyStr.lower s) kw = true ↔ contains_nocase s kw.
Proof.
  intros Hkw. rewrite contains_spec. unfold contains_nocase. split.
  - intros (x & y & Hxy).
    destruct (lower_app_inv _ _ _ Hxy) as (a & r & -> & _ & Hr).
    destruct (lower_app_inv _ _ _ Hr) as (mid & b & -> & Hmid & _).
    exists a, mid, b. split; [done|]. by apply lower_caseless.
  - intros (a & mid & b & -> & Hmid). apply lower_caseless in Hmid; [|done].
    exists (PyStr.lower a), (PyStr.lower b). by rewrite !lower_app, Hmid.
Qed.

Lemma truthy_false s : PyStr.truthy s = false → s = EmptyString.
Proof. by destruct s. Qed.

End string_facts.

(** ** The detector *)

Lemma attachment_detected_spec atts :
  attachment_detected atts = true ↔
  ∃ a, a ∈ atts ∧ ∃ ext, ext ∈ spreadsheet_extensions ∧ is_suffix ext (filename a).
Proof.
  induction atts as [|a rest IH]; cbn [attachment_detected].
  - split; [done | intros (a & Ha & _); by apply elem_of_nil in Ha].
  - destruct (PyStr.endswith_any (filename a) spreadsheet_extensions) eqn:E.
    + split; [intros _ | done]. exists a. split; [left|].
      by apply endswith_any_spec.
    + rewrite IH. split.
      * intros (b & Hb & H). exists b. split; [by right | done].
      * intros (b & Hb & H). apply elem_of_cons in Hb as [->|Hb].
        -- apply endswith_any_spec in H. congruence.
        -- by exists b.
Qed.

Lemma keyword_detected_spec text kws :
  (∀ kw, kw ∈ kws → no_capital kw = true) →
  keyword_detected text kws = true ↔ ∃ kw, kw ∈ kws ∧ contains_nocase text kw.
Proof.
  induction kws as [|kw rest IH]; intros Hsmall; cbn [keyword_detected].
  - split; [done | intros (kw & Hkw & _); by apply elem_of_nil in Hkw].
  - assert (Hkw : no_capital kw = true) by (apply Hsmall; by left).
    assert (Hrest : ∀ kw', kw' ∈ rest → no_capital kw' = true)
      by (intros kw' Hin; apply Hsmall; by right).
    specialize (IH Hrest).
    destruct (PyStr.contains (PyStr.lower text) kw) eqn:E.
    + split; [intros _ | done]. exists kw. split; [left|].
      by apply (contains_lower_spec text kw Hkw).
    + rewrite IH. split.
      * intros (k & Hk & H). exists k. split; [by right | done].
      * intros (k & Hk & H). apply elem_of_cons in Hk as [->|Hk].
        -- apply (contains_lower_spec text kw Hkw) in H. congruence.
        -- by exists k.
Qed.

Lemma google_sheets_keywords_small (kw : string) :
  kw ∈ google_sheets_keywords → no_capital kw = true.
Proof.
  intros Hin. unfold google_sheets_keywords in Hin.
  repeat (apply elem_of_cons in Hin as [->|Hin]); try reflexivity.
  by apply elem_of_nil in Hin.
Qed.

(** No keyword is empty, so the empty text contains none of them. *)
Lemma keyword_detected_empty : keyword_detected EmptyString google_sheets_keywords = false.
Proof. reflexivity. Qed.

(** C1. The detector classifies a message as a submission when some
    attachment's filename ends, character for character, with one of
    [.xlsx], [.xls], [.csv], [.ods]; when no attachment does, it classifies
    the message as a submission exactly when its text contains, up to case,
    one of [docs.google.com/spreadsheets], [sheets.google.com],
    [drive.google.com]; otherwise the message is not a submission. *)
Theorem classifier_rules (m : message) :
  let by_file :=
    ∃ a, a ∈ attachments m ∧
      ∃ ext, ext ∈ [".xlsx"; ".xls"; ".csv"; ".ods"] ∧ is_suffix ext (filename a) in
  let by_link :=
    ∃ kw, kw ∈ ["docs.google.com/spreadsheets"; "sheets.google.com"; "drive.google.com"]
          ∧ contains_nocase (content m) kw in
  (by_file → spreadsheet_detected m = true)
  ∧ (¬ by_file → by_link → spreadsheet_detected m = true)
  ∧ (¬ by_file → ¬ by_link → spreadsheet_detected m = false).
Proof.
  intros by_file by_link.
  assert (Hf : attachment_detected (attachments m) = true ↔ by_file)
    by apply attachment_detected_spec.
  assert (Hl : keyword_detected (content m) google_sheets_keywords = true ↔ by_link)
    by apply keyword_detected_spec, google_sheets_keywords_small.
  unfold spreadsheet_detected.
  destruct (attachment_detected (attachments m)) eqn:Ea; simpl.
  - split; [done|]. split; intros Hn; exfalso; apply Hn; by apply Hf.
  - split; [intros H; apply Hf in H; discriminate|].
    destruct (PyStr.truthy (content m)) eqn:Et.
    + split; intros _.
      * intros H. by apply Hl.
      * intros H. destruct (keyword_detected _ _) eqn:Ek; [|done].
        exfalso. apply H. by apply Hl.
    + split; intros _; [|done].
      intros H. apply Hl in H. apply truthy_false in Et. rewrite Et in H.
      rewrite keyword_detected_empty in H. discriminate.
Qed.

Lemma classifier_rules_witness :
  let shouted := {| author := Sample.alice; channel := 5;
                    content := "see HTTPS://Docs.Google.COM/SpreadSheets/d/abc";
                    attachments := [ {| filename := "REPORT.XLSX" |} ] |} in
  let plain := {| author := Sample.alice; channel := 5;
                  content := "see the attached file";
                  attachments := [ {| filename := "REPORT.XLSX" |} ] |} in
  spreadsheet_detected shouted = true ∧ spreadsheet_detected plain = false.
Proof.
  cbv zeta.
  assert (Hfile : ∀ m : message,
    attachments m = [ {| filename := "REPORT.XLSX" |} ] →
    ¬ ∃ a, a ∈ attachments m ∧
        ∃ ext, ext ∈ [".xlsx"; ".xls"; ".csv"; ".ods"] ∧ is_suffix ext (filename a)).
  { intros m Hm (a & Ha & ext & Hext & Hsuf). rewrite Hm in Ha.
    apply list_elem_of_singleton in Ha as ->. apply endswith_spec in Hsuf.
    repeat (apply elem_of_cons in Hext as [->|Hext]); try discriminate.
    by apply elem_of_nil in Hext. }
  split.
  - match goal with |- spreadsheet_detected ?m = true =>
      destruct (classifier_rules m) as (_ & Hlink & _); apply Hlink;
        [by apply Hfile|]
    end.
    exists "docs.google.com/spreadsheets". split; [by left|].
    exists "see HTTPS://", "Docs.Google.COM/SpreadSheets", "/d/abc".
    split; reflexivity.
  - match goal with |- spreadsheet_detected ?m = false =>
      destruct (classifier_rules m) as (_ & _ & Hnone); apply Hnone;
        [by apply Hfile|]
    end.
    intros (kw & Hkw & Hin).
    assert (Hsmall : no_capital kw = true).
    { repeat (apply elem_of_cons in Hkw as [->|Hkw]); try reflexivity.
      by apply elem_of_nil in Hkw. }
    apply (contains_lower_spec _ kw Hsmall) in Hin.
    repeat (apply elem_of_cons in Hkw as [->|Hkw]); try discriminate.
    by apply elem_of_nil in Hkw.
Defined.

(** The detector on the messages of the specification's scenarios. *)

Example detect_xlsx :
  spreadsheet_detected
    {| author := Sample.alice; channel := 5; content := EmptyString;
       attachments := [ {| filename := "report.xlsx" |} ] |} = true.
Proof. reflexivity. Qed.

Example detect_pdf :
  spreadsheet_detected
    {| author := Sample.alice; channel := 5; content := "see file";
       attachments := [ {| filename := "report.pdf" |} ] |} = false.
Proof. reflexivity. Qed.

Example detect_file_before_text :
  spreadsheet_detected
    {| author := Sample.alice; channel := 5; content := "nothing to see";
       attachments := [ {| filename := "notes.txt" |}; {| filename := "q3.ods" |} ] |}
  = true.
Proof. reflexivity. Qed.

Example detect_upper_case_extension :
  spreadsheet_detected
    {| author := Sample.alice; channel := 5; content := EmptyString;
       attachments := [ {| filename := "REPORT.XLSX" |} ] |} = false.
Proof. reflexivity. Qed.

Example detect_docs_link :
  spreadsheet_detected
    {| author := Sample.alice; channel := 5;
       content := "here: https://Docs.Google.com/spreadsheets/d/abc";
       attachments := [] |} = true.
Proof. reflexivity. Qed.

Example detect_drive_folder :
  spreadsheet_detected
    {| author := Sample.alice; channel := 5;
       content := "check my drive.google.com folder";
       attachments := [] |} = true.
Proof. reflexivity. Qed.

Example detect_hello :
  spreadsheet_detected
    {| author := Sample.alice; channel := 5; content := "hello team";
       attachments := [] |} = false.
Proof. reflexivity. Qed.

(** ** Sorting a set *)

Lemma sorted_elem_of (s : gset Z) (x : Z) : x ∈ sorted s ↔ x ∈ s.
Proof. unfold sorted. by rewrite merge_sort_Permutation, elem_of_elements. Qed.

Lemma sorted_NoDup (s : gset Z) : NoDup (sorted s).
Proof. unfold sorted. rewrite merge_sort_Permutation. apply NoDup_elements. Qed.

Lemma sorted_le (s : gset Z) : StronglySorted Z.le (sorted s).
Proof. apply (StronglySorted_merge_sort Z.le). Qed.

Lemma StronglySorted_le_lt (l : list Z) :
  StronglySorted Z.le l → NoDup l → StronglySorted Z.lt l.
Proof.
  induction 1 as [|x l Hl IH Hx]; intros Hnd; [constructor|].
  apply NoDup_cons in Hnd as [Hnx Hnd]. constructor; [by apply IH|].
  apply Forall_forall. intros y Hy.
  rewrite Forall_forall in Hx. specialize (Hx y Hy).
  assert (x ≠ y) by (by intros ->). lia.
Qed.

(** [sorted s] is strictly ascending. *)
Lemma sorted_lt (s : gset Z) : StronglySorted Z.lt (sorted s).
Proof. apply StronglySorted_le_lt; [apply sorted_le | apply sorted_NoDup]. Qed.

Lemma StronglySorted_lt_NoDup (l : list Z) : StronglySorted Z.lt l → NoDup l.
Proof.
  induction 1 as [|x l Hl IH Hx]; [constructor|].
  apply NoDup_cons. split; [|done].
  intros Hin. rewrite Forall_forall in Hx.
  apply Hx in Hin. lia.
Qed.

Lemma StronglySorted_lt_le (l : list Z) :
  StronglySorted Z.lt l → StronglySorted Z.le l.
Proof.
  induction 1 as [|x l Hl IH Hx]; constructor; [done|].
  eapply Forall_impl; [exact Hx|]. intros y Hy; simpl in *; lia.
Qed.

(** A strictly ascending list is what [sorted] makes of its own set. *)
Lemma sorted_list_to_set (l : list Z) :
  StronglySorted Z.lt l → sorted (list_to_set l) = l.
Proof.
  intros Hl. apply (StronglySorted_unique Z.le).
  - apply sorted_le.
  - by apply StronglySorted_lt_le.
  - unfold sorted. rewrite merge_sort_Permutation.
    apply elements_list_to_set. by apply StronglySorted_lt_NoDup.
Qed.

Lemma list_to_set_sorted (s : gset Z) : list_to_set (sorted s) = s.
Proof. apply set_eq. intros x. by rewrite elem_of_list_to_set, sorted_elem_of. Qed.

(** ** Roster partition *)

Lemma elem_of_member_ids (g : guild) (uid : Z) :
  uid ∈ member_ids g ↔ ∃ m, m ∈ members g ∧ bot m = false ∧ member_id m = uid.
Proof.
  unfold member_ids. rewrite elem_of_list_to_set, list_elem_of_fmap. split.
  - intros (m & -> & Hm). apply list_elem_of_In, filter_In in Hm as [Hm Hb].
    exists m. rewrite list_elem_of_In. by destruct (bot m).
  - intros (m & Hm & Hb & <-). exists m. split; [done|].
    apply list_elem_of_In, filter_In. rewrite <- list_elem_of_In, Hb. done.
Qed.

(** C2. For every ledger, day and roster the partition gives disjoint sets
    whose union is the set of the non-bot roster identities, and an identity
    in the ledger's set for the day that no roster member carries is in
    neither set. *)
Theorem partition_covers_roster (e : env) (d : gmap string (gset Z)) (g : guild) :
  let submitted := (_get_today_sets e d g).1 in
  let not_submitted := (_get_today_sets e d g).2 in
  submitted ∩ not_submitted = ∅
  ∧ (∀ uid, uid ∈ submitted ∪ not_submitted ↔
            ∃ m, m ∈ members g ∧ bot m = false ∧ member_id m = uid)
  ∧ (∀ uid, uid ∈ submitted ↔
            uid ∈ dict_get (_today_key e) d ∧
            ∃ m, m ∈ members g ∧ bot m = false ∧ member_id m = uid)
  ∧ (∀ uid, uid ∈ dict_get (_today_key e) d →
            (∀ m, m ∈ members g → member_id m ≠ uid) →
            (uid ∉ submitted) ∧ (uid ∉ not_submitted)).
Proof.
  intros submitted not_submitted.
  subst submitted not_submitted. unfold _get_today_sets. cbn [fst snd].
  split; [|split; [|split]].
  - apply set_eq. intros uid.
    rewrite elem_of_intersection, elem_of_difference, elem_of_empty. tauto.
  - intros uid. rewrite <- elem_of_member_ids.
    rewrite elem_of_union, elem_of_difference, elem_of_intersection.
    destruct (decide (uid ∈ dict_get (_today_key e) d)); tauto.
  - intros uid. rewrite <- elem_of_member_ids. apply elem_of_intersection.
  - intros uid _ Habs.
    assert (uid ∉ member_ids g) as Hout.
    { rewrite elem_of_member_ids. intros (m & Hm & _ & Hid). by apply (Habs m). }
    rewrite elem_of_difference, elem_of_intersection. tauto.
Qed.

(** ** Recording submissions *)

Lemma lookup_record (day k : string) (uid : Z) (d : gmap string (gset Z)) :
  record day uid d !! k =
  if decide (k = day) then Some (dict_get day d ∪ {[uid]}) else d !! k.
Proof.
  unfold record, set_add_at, dict_setdefault, dict_get.
  case_decide as Hk.
  - subst k. destruct (d !! day) as [s|] eqn:Hd.
    + by rewrite lookup_alter_eq, Hd.
    + by rewrite lookup_alter_eq, lookup_insert_eq.
  - rewrite lookup_alter_ne by done.
    destruct (d !! day); [done|]. by rewrite lookup_insert_ne.
Qed.

Lemma dict_get_record (day k : string) (uid : Z) (d : gmap string (gset Z)) :
  dict_get k (record day uid d) =
  if decide (k = day) then dict_get k d ∪ {[uid]} else dict_get k d.
Proof.
  unfold dict_get at 1. rewrite lookup_record.
  case_decide; [by subst | done].
Qed.

(** Recording an identity that the day's set already holds changes nothing,
    not even the dictionary. *)
Lemma record_present (day : string) (uid : Z) (d : gmap string (gset Z)) :
  uid ∈ dict_get day d → record day uid d = d.
Proof.
  intros Hin. apply map_eq. intros k. rewrite lookup_record.
  case_decide as Hk; [subst k|done].
  unfold dict_get in *. destruct (d !! day) as [s|]; simpl in *.
  - f_equal. apply set_eq. intros x. rewrite elem_of_union, elem_of_singleton.
    split; [intros [?| ->]; done | by left].
  - by apply elem_of_empty in Hin.
Qed.

Lemma record_all_snoc ops day uid (d : gmap string (gset Z)) :
  record_all (ops ++ [(day, uid)]) d = record day uid (record_all ops d).
Proof. unfold record_all. by rewrite foldl_app. Qed.

Lemma elem_of_record_all ops (d : gmap string (gset Z)) (day : string) (x : Z) :
  x ∈ dict_get day (record_all ops d) ↔ x ∈ dict_get day d ∨ (day, x) ∈ ops.
Proof.
  induction ops as [|[day' uid] ops IH] using rev_ind.
  - simpl. split; [by left | intros [?|H]; [done | by apply elem_of_nil in H]].
  - rewrite record_all_snoc, dict_get_record, elem_of_app, list_elem_of_singleton.
    case_decide as Hd.
    + subst day'. rewrite elem_of_union, elem_of_singleton, IH.
      split; [intros [[?|?]| ->]; auto | intros [?|[?|[= ->]]]; auto].
    + rewrite IH. split; [intros [?|?]; auto | intros [?|[?|[= ? ?]]]; auto].
      congruence.
Qed.

(** C3. After any run of [record] calls the day's set, listed as [save_data]
    writes it, holds every identity at most once, however often a pair
    (day, identity) was recorded; an identity is in the set exactly when it
    was there before or was recorded for that day; recording an identity
    that is already present leaves the day's set, and the whole ledger,
    unchanged. *)
Theorem record_idempotent (ops : list (string * Z)) (d : gmap string (gset Z))
    (day : string) (uid : Z) :
  let d' := record_all ops d in
  NoDup (sorted (dict_get day d'))
  ∧ NoDup (elements (dict_get day d'))
  ∧ (∀ x, x ∈ sorted (dict_get day d') ↔ x ∈ dict_get day d ∨ (day, x) ∈ ops)
  ∧ (uid ∈ dict_get day d' → record day uid d' = d')
  ∧ ((day, uid) ∈ ops → record_all (ops ++ [(day, uid)]) d = d')
  ∧ record day uid (record day uid d') = record day uid d'.
Proof.
  intros d'. split; [apply sorted_NoDup|]. split; [apply NoDup_elements|].
  split; [|split; [|split]].
  - intros x. rewrite sorted_elem_of. apply elem_of_record_all.
  - apply record_present.
  - intros Hin. rewrite record_all_snoc. apply record_present.
    apply elem_of_record_all. by right.
  - apply record_present. rewrite dict_get_record.
    rewrite decide_True by done. apply elem_of_union_r, elem_of_singleton. done.
Qed.

(** ** Running the handlers *)

Lemma save_data_run (e : env) (w : world) :
  save_data e w =
  (Returned tt,
   {| submissions_by_day := submissions_by_day w;
      data_file :=
        match disk e with
        | IoOk => Some (JObject (serializable (submissions_by_day w)))
        | IoOpenError => data_file w
        | IoWriteError => Some Unparsable
        end;
      trace :=
        trace w ++ Save :: match disk e with
                           | IoOk => []
                           | _ => [Logged LogSaveFailed]
                           end |}).
Proof.
  unfold save_data, bind, emit, get_ledger, write_file. simpl.
  destruct (disk e); simpl; by rewrite <- ?app_assoc.
Qed.

Lemma lookup_setdefault_eq {V} (k : string) (v : V) (d : gmap string V) :
  dict_setdefault k v d !! k = Some (default v (d !! k)).
Proof.
  unfold dict_setdefault. destruct (d !! k) eqn:E; simpl; [done|].
  apply lookup_insert_eq.
Qed.

Lemma lookup_setdefault_ne {V} (k k' : string) (v : V) (d : gmap string V) :
  k' ≠ k → dict_setdefault k v d !! k' = d !! k'.
Proof.
  intros Hne. unfold dict_setdefault. destruct (d !! k); [done|].
  by apply lookup_insert_ne.
Qed.

Lemma lookup_setdefault_Some {V} (k k' : string) (v x : V) (d : gmap string V) :
  d !! k' = Some x → dict_setdefault k v d !! k' = Some x.
Proof.
  intros Hx. destruct (decide (k' = k)) as [->|Hne].
  - by rewrite lookup_setdefault_eq, Hx.
  - by rewrite lookup_setdefault_ne.
Qed.

Lemma load_items_returns (items : list (string * jvalue)) (w : world) :
  (load_items items w).1 = Returned tt.
Proof.
  revert w. induction items as [|[k [ids|]] rest IH]; intros w; try reflexivity.
  cbn [load_items]. unfold bind, modify_ledger. apply IH.
Qed.

Lemma load_data_run_returns (w : world) :
  load_data w = (Returned tt, (load_data w).2).
Proof.
  assert ((load_data w).1 = Returned tt) as H.
  { unfold load_data. destruct (data_file w) as [[| |items]|]; try reflexivity.
    apply load_items_returns. }
  destruct (load_data w) as [r w']. simpl in *. by subst.
Qed.

(** ** Day rollover *)

Lemma heartbeat_tick_run (e : env) (last_day : string) (w : world) :
  heartbeat_tick e last_day w =
  if decide (_today_key e ≠ last_day) then
    let d := dict_setdefault (_today_key e) ∅ (submissions_by_day w) in
    (Returned (_today_key e),
     {| submissions_by_day := d;
        data_file :=
          match disk e with
          | IoOk => Some (JObject (serializable d))
          | IoOpenError => data_file w
          | IoWriteError => Some Unparsable
          end;
        trace :=
          trace w
          ++ [Logged (LogDateChanged last_day (_today_key e)); Save]
          ++ match disk e with IoOk => [] | _ => [Logged LogSaveFailed] end
          ++ [Logged (LogHeartbeat (_today_key e) (size (dict_get (_today_key e) d))
                        (channel_resolved e))] |})
  else
    (Returned last_day,
     {| submissions_by_day := submissions_by_day w;
        data_file := data_file w;
        trace :=
          trace w
          ++ [Logged (LogHeartbeat (_today_key e)
                        (size (dict_get (_today_key e) (submissions_by_day w)))
                        (channel_resolved e))] |}).
Proof.
  unfold heartbeat_tick. destruct (decide (_today_key e ≠ last_day)) as [Hne|Heq].
  - unfold bind at 1. unfold bind at 1. unfold bind at 1. unfold bind at 1.
    unfold emit at 1, modify_ledger at 1. rewrite save_data_run.
    unfold bind, ret, get_ledger, emit. cbn.
    destruct (disk e); cbn; by rewrite <- ?app_assoc.
  - reflexivity.
Qed.


(** C4, at an input where it fails: user 7 posts a spreadsheet a few
    seconds after midnight, before the next tick; the tick then finds the
    new key in the ledger and [setdefault] keeps its set, which is not
    empty. *)
Lemma rollover_keeps_early_submission :
  let w := (on_message Sample.jan2 (ret tt) Sample.csv_message Sample.after_jan1).2 in
  let w' := (heartbeat_tick Sample.jan2 "2024-01-01" w).2 in
  _today_key Sample.jan2 ≠ "2024-01-01"
  ∧ submissions_by_day w' !! "2024-01-02" = Some {[7]}
  ∧ submissions_by_day w' !! "2024-01-02" ≠ Some ∅.
Proof.
  assert (H : submissions_by_day
    (heartbeat_tick Sample.jan2 "2024-01-01"
       (on_message Sample.jan2 (ret tt) Sample.csv_message Sample.after_jan1).2).2
    !! "2024-01-02" = Some {[7]}) by (vm_compute; reflexivity).
  cbv zeta. split; [done|]. split; [exact H|].
  rewrite H. intros Heq. apply (inj Some) in Heq.
  assert (7 ∈ (∅ : gset Z)) as Hin.
  { rewrite <- Heq. by apply elem_of_singleton. }
  by apply elem_of_empty in Hin.
Qed.

(** C4, amended. On a tick whose Day Key differs from the remembered one
    the ledger has an entry for the new key afterwards: a new empty one when
    it had none, the existing one, untouched, when it had one.  Every other
    entry keeps its key and its set, the new key becomes the remembered one
    and [save_data] is called; when the write succeeds the file holds the
    ledger. *)
Theorem heartbeat_rollover (e : env) (last_day : string) (w : world) :
  _today_key e ≠ last_day →
  ∃ w',
    heartbeat_tick e last_day w = (Returned (_today_key e), w')
    ∧ submissions_by_day w' = dict_setdefault (_today_key e) ∅ (submissions_by_day w)
    ∧ (submissions_by_day w !! _today_key e = None →
       submissions_by_day w' !! _today_key e = Some ∅)
    ∧ (∀ k s, submissions_by_day w !! k = Some s → submissions_by_day w' !! k = Some s)
    ∧ (∀ k, k ≠ _today_key e → submissions_by_day w' !! k = submissions_by_day w !! k)
    ∧ (∃ rest, trace w' =
         (trace w ++ Logged (LogDateChanged last_day (_today_key e)) :: Save :: rest)%list)
    ∧ (disk e = IoOk →
       data_file w' = Some (JObject (serializable (submissions_by_day w')))).
Proof.
  intros Hne. rewrite heartbeat_tick_run, decide_True by done. cbv zeta.
  eexists. split; [reflexivity|]. cbn [submissions_by_day data_file trace].
  split; [done|]. split; [|split; [|split; [|split]]].
  - intros Hnone. by rewrite lookup_setdefault_eq, Hnone.
  - intros k s. apply lookup_setdefault_Some.
  - intros k Hk. by apply lookup_setdefault_ne.
  - by eexists.
  - intros Hok. by rewrite Hok.
Qed.

Lemma heartbeat_rollover_witness :
  _today_key Sample.jan2 ≠ "2024-01-01"
  ∧ ∃ w',
      heartbeat_tick Sample.jan2 "2024-01-01" Sample.after_jan1
      = (Returned "2024-01-02", w')
      ∧ submissions_by_day w' !! "2024-01-02" = Some ∅
      ∧ submissions_by_day w' !! "2024-01-01" = Some {[1; 2]}.
Proof.
  assert (Hne : _today_key Sample.jan2 ≠ "2024-01-01") by done.
  split; [exact Hne|].
  destruct (heartbeat_rollover Sample.jan2 "2024-01-01" Sample.after_jan1 Hne)
    as (w' & Hrun & _ & Hnew & Hold & _).
  exists w'. split; [exact Hrun|]. split.
  - apply Hnew. reflexivity.
  - apply Hold. reflexivity.
Defined.

(** Whatever the clock reads, a tick returns and keeps every entry that the
    ledger has. *)
Lemma heartbeat_tick_keeps (e : env) (last_day : string) (w : world) :
  (∃ day, (heartbeat_tick e last_day w).1 = Returned day)
  ∧ ∀ k s, submissions_by_day w !! k = Some s →
           submissions_by_day (heartbeat_tick e last_day w).2 !! k = Some s.
Proof.
  rewrite heartbeat_tick_run. destruct (decide (_today_key e ≠ last_day)).
  - cbn. split; [by eexists|]. intros k s. apply lookup_setdefault_Some.
  - cbn. split; [by eexists | done].
Qed.

(** The loop never loses or changes an entry, however many days go by. *)
Lemma heartbeat_loop_keeps (ticks : list env) (last_day : string) (w : world) :
  (∃ day, (heartbeat_loop ticks last_day w).1 = Returned day)
  ∧ ∀ k s, submissions_by_day w !! k = Some s →
           submissions_by_day (heartbeat_loop ticks last_day w).2 !! k = Some s.
Proof.
  revert last_day w. induction ticks as [|e rest IH]; intros last_day w.
  - split; [by eexists | done].
  - cbn [heartbeat_loop]. unfold bind.
    destruct (heartbeat_tick_keeps e last_day w) as [[day Hday] Hkeep].
    destruct (heartbeat_tick e last_day w) as [[day'|exc] w1] eqn:Htick;
      [|discriminate].
    destruct (IH day' w1) as [Hret Hrest]. split; [done|].
    intros k s Hk. apply Hrest. simpl in Hkeep. by apply Hkeep.
Qed.

(** After the end of [on_ready] today's key has an entry. *)
Lemma on_ready_load_today (e : env) (w : world) :
  (on_ready_load e w).1 = Returned tt
  ∧ is_Some (submissions_by_day (on_ready_load e w).2 !! _today_key e).
Proof.
  unfold on_ready_load, bind. rewrite load_data_run_returns.
  unfold modify_ledger. simpl. split; [done|].
  rewrite lookup_setdefault_eq. by eexists.
Qed.

(** ** Admin clear *)

Lemma send_run (e : env) (chan : Z) (p : payload) (w : world) :
  (send e chan p w).2 =
  {| submissions_by_day := submissions_by_day w; data_file := data_file w;
     trace := trace w ++ [Send chan p] |}.
Proof. unfold send, bind, emit, ret, raise. by destruct (send_result e chan). Qed.

Lemma clear_elsewhere (e : env) (ctx : context) (w : world) :
  ctx_channel ctx ≠ CHANNEL_ID e → clear_submissions e ctx w = (Returned tt, w).
Proof. intros Hc. unfold clear_submissions. by rewrite decide_True. Qed.

Lemma clear_denied (e : env) (ctx : context) (w : world) :
  ctx_channel ctx = CHANNEL_ID e → ctx_administrator ctx = false →
  (clear_submissions e ctx w).2 =
  {| submissions_by_day := submissions_by_day w; data_file := data_file w;
     trace := trace w ++ [Send (ctx_channel ctx) denial] |}.
Proof.
  intros Hc Ha. unfold clear_submissions.
  rewrite decide_False by (by intros ?). rewrite Ha. simpl. apply send_run.
Qed.

Lemma clear_granted (e : env) (ctx : context) (w : world) :
  ctx_channel ctx = CHANNEL_ID e → ctx_administrator ctx = true →
  (clear_submissions e ctx w).2 =
  (send e (ctx_channel ctx) (Text "🗑️ Cleared today's submission list.")
     (save_data e
        {| submissions_by_day := <[_today_key e := ∅]> (submissions_by_day w);
           data_file := data_file w; trace := trace w |}).2).2.
Proof.
  intros Hc Ha. unfold clear_submissions.
  rewrite decide_False by (by intros ?). rewrite Ha. simpl.
  unfold bind at 1. unfold modify_ledger at 1.
  unfold bind. rewrite save_data_run. reflexivity.
Qed.

Lemma clear_granted_ledger (e : env) (ctx : context) (w : world) :
  ctx_channel ctx = CHANNEL_ID e → ctx_administrator ctx = true →
  submissions_by_day (clear_submissions e ctx w).2
  = <[_today_key e := ∅]> (submissions_by_day w).
Proof.
  intros Hc Ha. rewrite clear_granted by done.
  by rewrite send_run, save_data_run.
Qed.

(** C7. [clear_submissions], run in the target channel by an administrator,
    replaces today's set by the empty set and calls [save_data]; every other
    day of the ledger keeps its entry and its set.  When the write succeeds
    the file holds the cleared ledger. *)
Theorem clear_touches_today_only (e : env) (ctx : context) (w : world) :
  ctx_channel ctx = CHANNEL_ID e →
  ctx_administrator ctx = true →
  let w' := (clear_submissions e ctx w).2 in
  submissions_by_day w' = <[_today_key e := ∅]> (submissions_by_day w)
  ∧ submissions_by_day w' !! _today_key e = Some ∅
  ∧ (∀ k, k ≠ _today_key e → submissions_by_day w' !! k = submissions_by_day w !! k)
  ∧ (∃ rest, trace w' = (trace w ++ Save :: rest)%list)
  ∧ (disk e = IoOk →
     data_file w' = Some (JObject (serializable (submissions_by_day w')))).
Proof.
  intros Hc Ha w'. subst w'. rewrite clear_granted by done.
  rewrite send_run, save_data_run. simpl.
  split; [done|]. split; [apply lookup_insert_eq|]. split; [|split].
  - intros k Hk. by apply lookup_insert_ne.
  - eexists. rewrite <- app_assoc. simpl. reflexivity.
  - intros Hok. by rewrite Hok.
Qed.

Lemma clear_touches_today_only_witness :
  let w' := (clear_submissions Sample.jan2 Sample.admin_ctx Sample.busy_day).2 in
  submissions_by_day Sample.busy_day !! "2024-01-02" = Some {[5; 6; 7]}
  ∧ submissions_by_day w' !! "2024-01-02" = Some ∅
  ∧ submissions_by_day w' !! "2024-01-01" = Some {[1; 2]}.
Proof.
  cbv zeta. split; [reflexivity|].
  destruct (clear_touches_today_only Sample.jan2 Sample.admin_ctx Sample.busy_day)
    as (_ & Htoday & Hother & _); [reflexivity | reflexivity |].
  split; [exact Htoday|].
  rewrite (Hother "2024-01-01"); [reflexivity | discriminate].
Defined.

(** C9. [clear_submissions], run in the target channel by a user who is not
    an administrator, sends the denial message and nothing else: the ledger
    and the data file are what they were and [save_data] is not called.
    Whenever [clear_submissions] changes the ledger its caller is an
    administrator in the target channel, and such a call empties today's
    set. *)
Theorem clear_denied_without_administrator (e : env) (ctx : context) (w : world) :
  ctx_channel ctx = CHANNEL_ID e →
  ctx_administrator ctx = false →
  let w' := (clear_submissions e ctx w).2 in
  submissions_by_day w' = submissions_by_day w
  ∧ data_file w' = data_file w
  ∧ trace w' = (trace w ++ [Send (ctx_channel ctx) denial])%list
  ∧ (∀ ctx0 w0,
       submissions_by_day (clear_submissions e ctx0 w0).2 ≠ submissions_by_day w0 →
       ctx_administrator ctx0 = true ∧ ctx_channel ctx0 = CHANNEL_ID e)
  ∧ (∀ ctx0 w0,
       ctx_channel ctx0 = CHANNEL_ID e → ctx_administrator ctx0 = true →
       dict_get (_today_key e) (submissions_by_day (clear_submissions e ctx0 w0).2) = ∅).
Proof.
  intros Hc Ha w'. subst w'. rewrite clear_denied by done. simpl.
  split; [done|]. split; [done|]. split; [done|]. split.
  - intros ctx0 w0 Hchg.
    destruct (decide (ctx_channel ctx0 = CHANNEL_ID e)) as [Hc0|Hc0].
    + split; [|done]. destruct (ctx_administrator ctx0) eqn:Ha0; [done|].
      rewrite clear_denied in Hchg by done. by simpl in Hchg.
    + rewrite clear_elsewhere in Hchg by done. by simpl in Hchg.
  - intros ctx0 w0 Hc0 Ha0. rewrite clear_granted_ledger by done.
    unfold dict_get. by rewrite lookup_insert_eq.
Qed.

Lemma clear_denied_without_administrator_witness :
  let w' := (clear_submissions Sample.jan2 Sample.plain_ctx Sample.busy_day).2 in
  submissions_by_day w' = submissions_by_day Sample.busy_day
  ∧ trace w' = [Send 10 denial].
Proof.
  cbv zeta.
  destruct (clear_denied_without_administrator
              Sample.jan2 Sample.plain_ctx Sample.busy_day)
    as (Hledger & _ & Htrace & _); [reflexivity | reflexivity |].
  split; [exact Hledger | exact Htrace].
Defined.

(** ** Loading *)

Lemma load_items_run (items : list (string * jvalue)) (w : world) :
  load_items items w =
  (Returned tt,
   {| submissions_by_day := store_all (list_prefix items) (submissions_by_day w);
      data_file := data_file w;
      trace :=
        trace w ++
        [Logged (if all_lists items
                 then LogLoaded (size (store_all (list_prefix items) (submissions_by_day w)))
                 else LogLoadFailed)] |}).
Proof.
  revert w. induction items as [|[k [ids|]] rest IH]; intros w.
  - reflexivity.
  - cbn [load_items]. unfold bind, modify_ledger. rewrite IH. reflexivity.
  - reflexivity.
Qed.

Lemma store_all_union (entries : list (string * list Z)) (d : gmap string (gset Z)) :
  NoDup entries.*1 →
  store_all entries d
  = list_to_map ((λ kv, (kv.1, list_to_set kv.2)) <$> entries) ∪ d.
Proof.
  revert d. induction entries as [|[k ids] rest IH]; intros d Hnd.
  - simpl. by rewrite (left_id_L ∅ (∪)).
  - apply NoDup_cons in Hnd as [Hk Hnd].
    unfold store_all in *. cbn [foldl fmap list_fmap list_to_map foldr fst snd].
    rewrite IH by done. simpl. rewrite <- insert_union_l.
    symmetry. apply insert_union_r. apply not_elem_of_list_to_map_1.
    rewrite <- list_fmap_compose. exact Hk.
Qed.

Lemma list_prefix_serializable (d : gmap string (gset Z)) :
  list_prefix (serializable d) = (λ kv, (kv.1, sorted kv.2)) <$> map_to_list d.
Proof.
  unfold serializable. induction (map_to_list d) as [|[k s] l IH]; [done|].
  rewrite !fmap_cons. cbn [list_prefix fst snd]. by rewrite IH.
Qed.

Lemma all_lists_serializable (d : gmap string (gset Z)) :
  all_lists (serializable d) = true.
Proof.
  unfold serializable, all_lists. induction (map_to_list d) as [|[k s] l IH]; done.
Qed.

(** Storing what [save_data] wrote gives the saved ledger back, on top of an
    empty ledger and on top of the saved ledger itself. *)
Lemma store_all_serializable (d d0 : gmap string (gset Z)) :
  d0 = ∅ ∨ d0 = d → store_all (list_prefix (serializable d)) d0 = d.
Proof.
  intros Hd0. rewrite list_prefix_serializable, store_all_union.
  - rewrite <- list_fmap_compose.
    rewrite (list_fmap_ext _ id (map_to_list d)).
    + rewrite list_fmap_id, list_to_map_to_list.
      destruct Hd0 as [-> | ->]; [apply (right_id_L ∅ (∪)) | apply (idemp_L (∪))].
    + intros i [k s] _. simpl. by rewrite list_to_set_sorted.
  - rewrite <- list_fmap_compose. apply NoDup_fst_map_to_list.
Qed.

Lemma load_data_run (w : world) :
  load_data w =
  (Returned tt,
   match data_file w with
   | None => w
   | Some (JObject items) =>
       {| submissions_by_day := store_all (list_prefix items) (submissions_by_day w);
          data_file := data_file w;
          trace :=
            trace w ++
            [Logged (if all_lists items
                     then LogLoaded
                            (size (store_all (list_prefix items) (submissions_by_day w)))
                     else LogLoadFailed)] |}
   | Some _ =>
       {| submissions_by_day := submissions_by_day w; data_file := data_file w;
          trace := trace w ++ [Logged LogLoadFailed] |}
   end).
Proof.
  unfold load_data. destruct w as [d [[| |items]|] t]; try reflexivity.
  apply load_items_run.
Qed.

Lemma elem_of_serializable (d : gmap string (gset Z)) (k : string) (v : jvalue) :
  (k, v) ∈ serializable d ↔ ∃ s, d !! k = Some s ∧ v = JInts (sorted s).
Proof.
  unfold serializable. rewrite list_elem_of_fmap. split.
  - intros ([k' s] & [= -> ->] & Hin). exists s. split; [|done].
    by apply elem_of_map_to_list.
  - intros (s & Hs & ->). exists (k, s). split; [done|].
    by apply elem_of_map_to_list.
Qed.

(** ** Save, then load *)

(** C5. When the write succeeds, [save_data] followed by [load_data] gives
    the ledger back, in the running process and in a fresh one: the file
    holds one entry per Day Key, each with the day's identities as a strictly
    ascending list, and [load_data] turns every list back into its set. *)
Theorem save_load_round_trip (e : env) (w : world) :
  disk e = IoOk →
  let w1 := (save_data e w).2 in
  let fresh := {| submissions_by_day := ∅; data_file := data_file w1; trace := [] |} in
  (load_data w1).1 = Returned tt
  ∧ submissions_by_day (load_data w1).2 = submissions_by_day w
  ∧ submissions_by_day (load_data fresh).2 = submissions_by_day w
  ∧ ∃ items,
      data_file w1 = Some (JObject items)
      ∧ NoDup items.*1
      ∧ (∀ k v, (k, v) ∈ items ↔
                ∃ s, submissions_by_day w !! k = Some s ∧ v = JInts (sorted s))
      ∧ (∀ k ids, (k, JInts ids) ∈ items →
                  StronglySorted Z.lt ids
                  ∧ ∀ x, x ∈ ids ↔ x ∈ dict_get k (submissions_by_day w)).
Proof.
  intros Hok w1 fresh. subst fresh w1.
  rewrite save_data_run, Hok. cbn [snd data_file].
  rewrite !load_data_run. cbn [fst snd data_file submissions_by_day].
  split; [done|]. split; [|split].
  - apply store_all_serializable. by right.
  - apply store_all_serializable. by left.
  - exists (serializable (submissions_by_day w)). split; [done|]. split; [|split].
    + unfold serializable. rewrite <- list_fmap_compose.
      apply NoDup_fst_map_to_list.
    + apply elem_of_serializable.
    + intros k ids Hin. apply elem_of_serializable in Hin as (s & Hs & [= ->]).
      split; [apply sorted_lt|]. intros x. unfold dict_get. rewrite Hs. simpl.
      apply sorted_elem_of.
Qed.

Lemma save_load_round_trip_witness :
  disk Sample.jan2 = IoOk
  ∧ submissions_by_day
      (load_data (save_data Sample.jan2 Sample.busy_day).2).2
    = submissions_by_day Sample.busy_day.
Proof.
  split; [reflexivity|].
  destruct (save_load_round_trip Sample.jan2 Sample.busy_day) as (_ & H & _);
    [reflexivity | exact H].
Defined.

(** X5. The other way round: a data file with distinct Day Keys and strictly
    ascending lists, loaded by a fresh process and saved again, has the same
    entries as before. *)
Lemma load_save_document (e : env) (items : list (string * jvalue)) :
  disk e = IoOk →
  NoDup items.*1 →
  (∀ k v, (k, v) ∈ items → ∃ ids, v = JInts ids ∧ StronglySorted Z.lt ids) →
  let fresh := {| submissions_by_day := ∅; data_file := Some (JObject items);
                  trace := [] |} in
  ∃ items',
    data_file (save_data e (load_data fresh).2).2 = Some (JObject items')
    ∧ items' ≡ₚ items.
Proof.
  intros Hok Hnd Hsorted fresh. subst fresh.
  rewrite save_data_run, Hok, load_data_run. cbn [snd data_file submissions_by_day].
  eexists. split; [reflexivity|].
  assert (Hpre : (λ kv : string * list Z, (kv.1, JInts kv.2)) <$> list_prefix items = items).
  { clear Hnd. induction items as [|[k v] rest IH]; [done|].
    destruct (Hsorted k v) as (ids & -> & _); [left|].
    cbn [list_prefix]. rewrite fmap_cons, IH; [done|].
    intros k' v' Hin. apply (Hsorted k' v'). by right. }
  assert (Hkeys : (list_prefix items).*1 = items.*1).
  { rewrite <- Hpre at 2. by rewrite <- list_fmap_compose. }
  assert (Hasc : ∀ k ids, (k, ids) ∈ list_prefix items → StronglySorted Z.lt ids).
  { intros k ids Hin.
    destruct (Hsorted k (JInts ids)) as (ids' & [= <-] & Hs); [|done].
    rewrite <- Hpre. apply list_elem_of_fmap. by exists (k, ids). }
  assert (Hsets :
    ((λ kv : string * list Z, (kv.1, list_to_set kv.2 : gset Z)) <$> list_prefix items).*1
    = items.*1).
  { rewrite <- Hkeys, <- list_fmap_compose. apply list_fmap_ext. by intros i [k ids] _. }
  rewrite store_all_union by (by rewrite Hkeys).
  rewrite (right_id_L ∅ (∪)). unfold serializable.
  rewrite map_to_list_to_map by (by rewrite Hsets).
  rewrite <- list_fmap_compose. rewrite <- Hpre at 2.
  erewrite list_fmap_ext; [reflexivity|].
  intros i [k ids] Hi. simpl. f_equal. f_equal.
  apply sorted_list_to_set. apply (Hasc k). by eapply list_elem_of_lookup_2.
Qed.

(** ** Load never aborts, and what it leaves behind *)


Lemma store_all_lookup (entries : list (string * list Z)) (k : string) (s : gset Z) :
  NoDup entries.*1 →
  store_all entries ∅ !! k = Some s ↔ ∃ ids, (k, ids) ∈ entries ∧ s = list_to_set ids.
Proof.
  intros Hnd. rewrite store_all_union by done. rewrite (right_id_L ∅ (∪)).
  rewrite <- elem_of_list_to_map.
  - rewrite list_elem_of_fmap. split.
    + intros ([k' ids] & [= -> ->] & Hin). by exists ids.
    + intros (ids & Hin & ->). by exists (k, ids).
  - rewrite <- list_fmap_compose. exact Hnd.
Qed.


(** ** Messages *)

(** C10, at the input where the handler falls short of it: a link posted
    together with the [!test] probe in a channel where the bot may not write.
    The message is not the bot's own and the detector accepts it, yet the
    unguarded reply of line 161 raises before line 163 is reached: nobody is
    recorded and [save_data] is not called, whatever the command dispatch
    would have done. *)
Theorem on_message_probe_reply_aborts (process_commands : M unit) :
  let m := Sample.test_link_message in
  let e := Sample.jan2_muted in
  let w := Sample.after_jan1 in
  user_id (author m) ≠ bot_user e
  ∧ spreadsheet_detected m = true
  ∧ (on_message e process_commands m w).1 = Raised Forbidden
  ∧ submissions_by_day (on_message e process_commands m w).2 = submissions_by_day w
  ∧ (user_id (author m)
       ∉ dict_get (_today_key e)
           (submissions_by_day (on_message e process_commands m w).2))
  ∧ (Save ∉ trace (on_message e process_commands m w).2).
Proof.
  cbv zeta. split; [done|]. split; [reflexivity|].
  assert (Hrun : on_message Sample.jan2_muted process_commands
                   Sample.test_link_message Sample.after_jan1
                 = (Raised Forbidden,
                    {| submissions_by_day := submissions_by_day Sample.after_jan1;
                       data_file := data_file Sample.after_jan1;
                       trace := [Send 55 (Text ("🤖 Bot is working! Channel ID: "
                                                ++ pretty 55))] |}))
    by reflexivity.
  rewrite Hrun. cbn [fst snd submissions_by_day trace].
  split; [done|]. split; [done|]. split.
  - unfold dict_get. simpl. rewrite lookup_singleton_ne by done. simpl.
    apply not_elem_of_empty.
  - intros Hin. apply list_elem_of_singleton in Hin. discriminate.
Qed.

(** What [on_message] does when the probe reply, if there is one, goes
    through: for a message of another user that the detector accepts, in
    whatever channel, the author is in today's set and the ledger has been
    saved in the world [w1] that is handed to the command dispatch. *)
Lemma on_message_records (e : env) (process_commands : M unit) (m : message) (w : world) :
  user_id (author m) ≠ bot_user e →
  spreadsheet_detected m = true →
  (PyStr.startswith (content m) "!test" = true → send_result e (channel m) = SendOk) →
  ∃ w1,
    submissions_by_day w1
    = record (_today_key e) (user_id (author m)) (submissions_by_day w)
    ∧ user_id (author m) ∈ dict_get (_today_key e) (submissions_by_day w1)
    ∧ Save ∈ trace w1
    ∧ (disk e = IoOk →
       data_file w1 = Some (JObject (serializable (submissions_by_day w1))))
    ∧ on_message e process_commands m w
      = match send_result e (channel m) with
        | SendHTTPError => (Raised HTTPException, w1)
        | _ => process_commands w1
        end.
Proof.
  intros Hauthor Hdet Hprobe. unfold on_message.
  rewrite decide_False by done. rewrite Hdet.
  unfold record_submission.
  set (probe := if PyStr.startswith (content m) "!test" then _ else _).
  assert (∃ wp, probe w = (Returned tt, wp)
                ∧ submissions_by_day wp = submissions_by_day w) as (wp & Hp & Hpl).
  { subst probe. destruct (PyStr.startswith (content m) "!test").
    - unfold send, bind, emit. rewrite Hprobe by done. eexists. split; reflexivity.
    - eexists. split; reflexivity. }
  unfold bind at 1. rewrite Hp.
  unfold bind at 1. unfold bind at 1. unfold bind at 1.
  unfold modify_ledger at 1. rewrite save_data_run.
  unfold except_forbidden, send, bind, emit, ret, raise. cbn [fst snd].
  eexists {| submissions_by_day := _; data_file := _; trace := _ |}.
  split; [|split; [|split; [|split]]]; cycle 4.
  - destruct (send_result e (channel m)); reflexivity.
  - cbn. by rewrite Hpl.
  - cbn. rewrite dict_get_record, decide_True by done.
    apply elem_of_union_r. by apply elem_of_singleton.
  - cbn. rewrite !elem_of_app, elem_of_cons. left. right. by left.
  - cbn. intros Hok. by rewrite Hok.
Qed.

(** ** Reports *)

Lemma StronglySorted_lt_filter (P : Z → Prop) `{∀ x, Decision (P x)} (l : list Z) :
  StronglySorted Z.lt l → StronglySorted Z.lt (filter P l).
Proof.
  induction 1 as [|x l Hl IH Hx]; [constructor|].
  rewrite filter_cons. destruct (decide (P x)); [|done].
  constructor; [done|]. apply Forall_forall. intros y Hy.
  apply list_elem_of_filter in Hy as [_ Hy]. rewrite Forall_forall in Hx. auto.
Qed.

(** The generator of [daily_report] is the line of every id, taken over the
    ids that the lookup finds. *)
Lemma resolved_lines_filter (mark : string) (g : guild) (ids : gset Z) :
  resolved_lines mark g ids =
  (λ uid, mark ++ name_or_id g uid)
    <$> filter (λ uid, is_Some (get_member g uid)) (sorted ids).
Proof.
  unfold resolved_lines, name_or_id. induction (sorted ids) as [|uid l IH]; [done|].
  rewrite filter_cons. cbn [omap list_omap]. rewrite IH.
  destruct (get_member g uid) as [u|] eqn:Hu; simpl; [by rewrite Hu | done].
Qed.

Lemma report_submissions_run (e : env) (ctx : context) (w : world) :
  ctx_channel ctx = CHANNEL_ID e →
  let submitted := (_get_today_sets e (submissions_by_day w) (ctx_guild ctx)).1 in
  (report_submissions e ctx w).2 =
  {| submissions_by_day := submissions_by_day w; data_file := data_file w;
     trace := trace w ++
       [Send (ctx_channel ctx)
          (if decide (submitted = ∅) then Text "❌ No submissions received today."
           else submitted_embed (ctx_guild ctx) submitted)] |}.
Proof.
  intros Hc submitted. unfold report_submissions.
  rewrite decide_False by (by intros ?). unfold bind at 1, get_ledger at 1.
  fold submitted. destruct (decide (submitted = ∅)); apply send_run.
Qed.

Lemma report_not_submitted_run (e : env) (ctx : context) (w : world) :
  ctx_channel ctx = CHANNEL_ID e →
  let sets := _get_today_sets e (submissions_by_day w) (ctx_guild ctx) in
  (report_not_submitted e ctx w).2 =
  {| submissions_by_day := submissions_by_day w; data_file := data_file w;
     trace := trace w ++
       [Send (ctx_channel ctx)
          (if decide (sets.2 = ∅) then Text "✅ Everyone has submitted today!"
           else not_submitted_embed (ctx_guild ctx) sets.1 sets.2)] |}.
Proof.
  intros Hc sets. unfold report_not_submitted.
  rewrite decide_False by (by intros ?). unfold bind at 1, get_ledger at 1.
  fold sets. destruct (decide (sets.2 = ∅)); apply send_run.
Qed.

Lemma daily_report_run (e : env) (ctx : context) (w : world) :
  ctx_channel ctx = CHANNEL_ID e →
  let sets := _get_today_sets e (submissions_by_day w) (ctx_guild ctx) in
  (daily_report e ctx w).2 =
  {| submissions_by_day := submissions_by_day w; data_file := data_file w;
     trace := trace w ++
       [Send (ctx_channel ctx) (daily_embed e (ctx_guild ctx) sets.1 sets.2)] |}.
Proof.
  intros Hc sets. unfold daily_report.
  rewrite decide_False by (by intros ?). unfold bind at 1, get_ledger at 1.
  apply send_run.
Qed.

Lemma app_empty (s : string) : s ++ EmptyString = s.
Proof. induction s as [|c s IH]; [done|]. by rewrite app_cons, IH. Qed.

Lemma app_assoc' (a b s : string) : (a ++ b) ++ s = a ++ (b ++ s).
Proof. induction a as [|c a IH]; [done|]. by rewrite !app_cons, IH. Qed.

(** [PyStr.join] with the line feed puts its parts one per line. *)
Lemma join_one_per_line (parts : list string) :
  one_per_line parts (PyStr.join newline parts).
Proof.
  induction parts as [|x [|y rest] IH]; [constructor | constructor |].
  change (PyStr.join newline (x :: y :: rest))
    with (x ++ String "010"%char (PyStr.join newline (y :: rest))).
  by constructor.
Qed.

Lemma one_per_line_unique (parts : list string) (text : string) :
  one_per_line parts text → text = PyStr.join newline parts.
Proof.
  induction 1 as [|l|l l' rest text Hrest IH]; [done | done |].
  rewrite IH. reflexivity.
Qed.

(** Every line of a text that shows lines one per line is a stretch of the
    text. *)
Lemma one_per_line_contains (parts : list string) (text l : string) :
  one_per_line parts text → l ∈ parts → ∃ a b, text = a ++ l ++ b.
Proof.
  induction 1 as [|l0|l0 l' rest text Hrest IH]; intros Hin.
  - by apply elem_of_nil in Hin.
  - apply list_elem_of_singleton in Hin as ->.
    exists EmptyString, EmptyString. by rewrite app_empty.
  - apply elem_of_cons in Hin as [->|Hin].
    + by exists EmptyString, (String "010"%char text).
    + destruct (IH Hin) as (a & b & ->).
      exists (l0 ++ String "010"%char a), b. by rewrite app_assoc', app_cons.
Qed.

(** C8. In the target channel, with [submitted] and [not_submitted] the two
    sets of the partition: the text of the submitted report and of the
    not-submitted report shows, one per line and in ascending order of the
    identities, a line for every identity of the set, made of the mark and
    the display name, or of the mark and the identity itself in decimal when
    the lookup finds nobody, so that such an identity is read in the text;
    the text of the combined report shows, in ascending order too, lines for
    the identities that the lookup finds and for no other, so an identity it
    does not find has no line there. *)
Theorem reports_fallback_and_order (e : env) (ctx : context) (w : world) :
  ctx_channel ctx = CHANNEL_ID e →
  let g := ctx_guild ctx in
  let submitted := (_get_today_sets e (submissions_by_day w) g).1 in
  let not_submitted := (_get_today_sets e (submissions_by_day w) g).2 in
  let line (mark : string) (uid : Z) : string :=
    mark ++ match get_member g uid with
            | Some u => display_name u
            | None => pretty uid
            end in
  let found (uid : Z) : Prop := is_Some (get_member g uid) in
  let lf : string := String "010"%char EmptyString in
  (* the identities listed, in the order listed *)
  (StronglySorted Z.lt (sorted submitted)
   ∧ StronglySorted Z.lt (sorted not_submitted)
   ∧ StronglySorted Z.lt (filter found (sorted submitted))
   ∧ StronglySorted Z.lt (filter found (sorted not_submitted)))
  ∧ (∀ uid, (uid ∈ sorted submitted ↔ uid ∈ submitted)
            ∧ (uid ∈ sorted not_submitted ↔ uid ∈ not_submitted)
            ∧ (uid ∈ filter found (sorted submitted) ↔ found uid ∧ uid ∈ submitted)
            ∧ (uid ∈ filter found (sorted not_submitted)
               ↔ found uid ∧ uid ∈ not_submitted))
  (* the submitted report *)
  ∧ (submitted ≠ ∅ →
     ∃ text,
       one_per_line (line "✅ " <$> sorted submitted) text
       ∧ (∀ uid, uid ∈ submitted → get_member g uid = None →
                 ∃ a b, text = a ++ ("✅ " ++ pretty uid) ++ b)
       ∧ trace (report_submissions e ctx w).2 =
         (trace w ++
          [Send (ctx_channel ctx)
             (Embed "📊 Submitted Today" text
                ("Total submitted: " ++ pretty (size submitted)))%string])%list)
  (* the not-submitted report *)
  ∧ (not_submitted ≠ ∅ →
     ∃ text,
       one_per_line (line "❌ " <$> sorted not_submitted) text
       ∧ (∀ uid, uid ∈ not_submitted → get_member g uid = None →
                 ∃ a b, text = a ++ ("❌ " ++ pretty uid) ++ b)
       ∧ trace (report_not_submitted e ctx w).2 =
         (trace w ++
          [Send (ctx_channel ctx)
             (Embed "🕒 Not Yet Submitted Today" text
                ("Pending: " ++ pretty (size not_submitted)
                 ++ " | Submitted: " ++ pretty (size submitted)))%string])%list)
  (* the combined report *)
  ∧ (∃ sub_text pend_text,
       one_per_line (line "✅ " <$> filter found (sorted submitted)) sub_text
       ∧ one_per_line (line "❌ " <$> filter found (sorted not_submitted)) pend_text
       ∧ trace (daily_report e ctx w).2 =
         (trace w ++
          [Send (ctx_channel ctx)
             (Embed ("Daily Report – " ++ _today_key e)
                ((if decide (submitted = ∅) then "No submissions yet."
                  else "**Submitted:**" ++ lf ++ sub_text)
                 ++ lf
                 ++ (if decide (not_submitted = ∅)
                     then lf ++ "Everyone has submitted ✅"
                     else lf ++ "**Not Submitted:**" ++ lf ++ pend_text))
                ("Submitted: " ++ pretty (size submitted)
                 ++ " | Pending: " ++ pretty (size not_submitted)
                 ++ " | Total: "
                 ++ pretty (size submitted + size not_submitted)%nat))%string])%list).
Proof.
  intros Hc g submitted not_submitted line found lf.
  assert (Hfallback : ∀ mark ids text uid,
            one_per_line (line mark <$> sorted ids) text →
            uid ∈ ids → get_member g uid = None →
            ∃ a b, text = a ++ (mark ++ pretty uid) ++ b).
  { intros mark ids text uid Htext Hin Hnone.
    apply (one_per_line_contains _ _ _ Htext).
    apply list_elem_of_fmap. exists uid. split.
    - subst line. cbv beta. by rewrite Hnone.
    - by apply sorted_elem_of. }
  split; [|split; [|split; [|split]]].
  - repeat split; try apply StronglySorted_lt_filter; apply sorted_lt.
  - intros uid. rewrite !list_elem_of_filter, !sorted_elem_of. tauto.
  - intros Hne. exists (PyStr.join newline (line "✅ " <$> sorted submitted)).
    split; [apply join_one_per_line|]. split.
    + intros uid. apply Hfallback, join_one_per_line.
    + rewrite report_submissions_run by done. cbn [trace].
      fold g submitted. by rewrite decide_False.
  - intros Hne. exists (PyStr.join newline (line "❌ " <$> sorted not_submitted)).
    split; [apply join_one_per_line|]. split.
    + intros uid. apply Hfallback, join_one_per_line.
    + rewrite report_not_submitted_run by done. cbn [trace].
      fold g submitted not_submitted. by rewrite decide_False.
  - exists (PyStr.join newline (line "✅ " <$> filter found (sorted submitted))),
           (PyStr.join newline (line "❌ " <$> filter found (sorted not_submitted))).
    split; [apply join_one_per_line|]. split; [apply join_one_per_line|].
    rewrite daily_report_run by done. cbn [trace].
    fold g submitted not_submitted. unfold daily_embed, daily_desc_parts.
    by rewrite !resolved_lines_filter.
Qed.

Lemma reports_fallback_and_order_witness :
  ctx_channel Sample.team_ctx = CHANNEL_ID Sample.jan2
  ∧ trace (report_submissions Sample.jan2 Sample.team_ctx Sample.two_in).2
    = [Send 10 (Embed "📊 Submitted Today"
                  "✅ Alice
✅ 3"
                  "Total submitted: 2")]
  ∧ trace (daily_report Sample.jan2 Sample.team_ctx Sample.two_in).2
    = [Send 10 (Embed "Daily Report – 2024-01-02"
                  "**Submitted:**
✅ Alice

**Not Submitted:**
❌ Bob"
                  "Submitted: 2 | Pending: 1 | Total: 3")].
Proof.
  split; [reflexivity|].
  destruct (reports_fallback_and_order Sample.jan2 Sample.team_ctx Sample.two_in)
    as (_ & _ & Hsub & _ & Hday); [reflexivity|].
  split.
  - destruct Hsub as (text & Htext & _ & Htrace).
    + intros Hempty. assert (1 ∈ (∅ : gset Z)) as Hin; [|by apply elem_of_empty in Hin].
      rewrite <- Hempty. vm_compute. reflexivity.
    + rewrite Htrace, (one_per_line_unique _ _ Htext). vm_compute. reflexivity.
  - destruct Hday as (sub_text & pend_text & Hs & Hp & Htrace).
    rewrite Htrace, (one_per_line_unique _ _ Hs), (one_per_line_unique _ _ Hp).
    vm_compute. reflexivity.
Defined.

(** * Further properties of the code *)

(** ** The detector and the case of the text *)

Lemma keyword_detected_lower (c1 c2 : string) (kws : list string) :
  PyStr.lower c1 = PyStr.lower c2 → keyword_detected c1 kws = keyword_detected c2 kws.
Proof.
  intros Heq. induction kws as [|kw rest IH]; [done|].
  cbn [keyword_detected]. by rewrite Heq, IH.
Qed.

Lemma truthy_lower (c : string) : PyStr.truthy (PyStr.lower c) = PyStr.truthy c.
Proof. by destruct c. Qed.

(** X1. Two messages with the same attachments whose texts are equally
    long and differ, place by place, at most in the case of a letter [A] to
    [Z] are classified alike. *)
Theorem detector_ignores_case (m1 m2 : message) :
  attachments m1 = attachments m2 →
  caseless (content m1) (content m2) = true →
  spreadsheet_detected m1 = spreadsheet_detected m2.
Proof.
  intros Hatt Hcase. apply caseless_lower in Hcase as Hlow.
  unfold spreadsheet_detected. rewrite Hatt.
  rewrite <- (truthy_lower (content m1)), <- (truthy_lower (content m2)), Hlow.
  by rewrite (keyword_detected_lower _ _ _ Hlow).
Qed.

Lemma detector_ignores_case_witness :
  spreadsheet_detected
    {| author := Sample.alice; channel := 5;
       content := "Sheet: HTTPS://SHEETS.GOOGLE.COM/x"; attachments := [] |}
  = spreadsheet_detected
      {| author := Sample.alice; channel := 9;
         content := "sheet: https://sheets.google.com/X"; attachments := [] |}.
Proof. apply detector_ignores_case; reflexivity. Defined.

(** ** Recording in any order *)

(** X2. Two submissions can be recorded in either order: the ledger is the
    same, whether or not they fall on the same day or come from the same
    user. *)
Theorem record_commutes (day1 day2 : string) (uid1 uid2 : Z)
    (d : gmap string (gset Z)) :
  record day1 uid1 (record day2 uid2 d) = record day2 uid2 (record day1 uid1 d).
Proof.
  apply map_eq. intros k. rewrite !lookup_record, !dict_get_record.
  destruct (decide (k = day1)) as [H1|H1]; destruct (decide (k = day2)) as [H2|H2];
    subst; rewrite ?decide_True, ?decide_False by done; try done.
  f_equal. apply set_eq. intros x. rewrite !elem_of_union. tauto.
Qed.

(** ** Loading *)

Lemma list_prefix_all_lists (items : list (string * jvalue)) :
  all_lists items = true →
  (λ kv : string * list Z, (kv.1, JInts kv.2)) <$> list_prefix items = items.
Proof.
  induction items as [|[k [ids|]] rest IH]; intros Hall; [done| |done].
  cbn [list_prefix]. rewrite fmap_cons. simpl. rewrite IH; [done|].
  unfold all_lists in *. simpl in Hall. done.
Qed.

Lemma store_all_snoc entries (k : string) (ids : list Z) (d : gmap string (gset Z)) :
  store_all (entries ++ [(k, ids)]) d = <[k := list_to_set ids]> (store_all entries d).
Proof. unfold store_all. by rewrite foldl_app. Qed.

Lemma store_all_insert entries (k : string) (s : gset Z) (d : gmap string (gset Z)) :
  <[k := s]> (store_all entries (<[k := s]> d)) = <[k := s]> (store_all entries d).
Proof.
  revert d. induction entries as [|[k' ids] rest IH]; intros d.
  - simpl. apply insert_insert_eq.
  - unfold store_all in *. cbn [foldl fst snd].
    destruct (decide (k = k')) as [->|Hne].
    + by rewrite insert_insert_eq.
    + rewrite (insert_insert_ne d) by done. apply IH.
Qed.

Lemma store_all_idemp entries (d : gmap string (gset Z)) :
  store_all entries (store_all entries d) = store_all entries d.
Proof.
  revert d. induction entries as [|[k ids] rest IH] using rev_ind; intros d; [done|].
  by rewrite !store_all_snoc, store_all_insert, IH.
Qed.

(** X3. Loading twice is loading once: for every data file of the model
    (none, an unreadable one, a JSON value that is no object, an object
    whose values are lists of integers or scalars), and also when the first
    load failed half way, a second [load_data] leaves the ledger that the
    first one made. *)
Theorem load_data_idempotent (w : world) :
  submissions_by_day (load_data (load_data w).2).2
  = submissions_by_day (load_data w).2.
Proof.
  rewrite !load_data_run. cbn [snd].
  destruct w as [d [[| |items]|] t]; cbn; try done.
  apply store_all_idemp.
Qed.

(** X4. Loading merges day by day: with a file that is an object of lists
    with distinct keys, every day of the file gets the set of the file's
    list, replacing what the ledger had for it, and every day that the file
    does not mention keeps what it had. *)
Theorem load_data_file_wins (w : world) (items : list (string * jvalue)) :
  data_file w = Some (JObject items) →
  all_lists items = true →
  NoDup items.*1 →
  ∀ k,
    (∀ ids, (k, JInts ids) ∈ items →
            submissions_by_day (load_data w).2 !! k = Some (list_to_set ids))
    ∧ (k ∉ items.*1 →
       submissions_by_day (load_data w).2 !! k = submissions_by_day w !! k).
Proof.
  intros Hfile Hall Hnd k. rewrite load_data_run, Hfile. cbn [snd submissions_by_day].
  pose proof (list_prefix_all_lists items Hall) as Hpre.
  assert (Hkeys : (list_prefix items).*1 = items.*1).
  { rewrite <- Hpre at 2. by rewrite <- list_fmap_compose. }
  rewrite store_all_union by (by rewrite Hkeys).
  assert (Hsets :
    ((λ kv : string * list Z, (kv.1, list_to_set kv.2 : gset Z)) <$> list_prefix items).*1
    = items.*1).
  { rewrite <- Hkeys, <- list_fmap_compose. apply list_fmap_ext. by intros i [k' ids] _. }
  split.
  - intros ids Hin. apply lookup_union_Some_l.
    apply elem_of_list_to_map; [by rewrite Hsets|].
    apply list_elem_of_fmap. exists (k, ids). split; [done|].
    rewrite <- Hpre in Hin. apply list_elem_of_fmap in Hin as ([k' ids'] & [= -> ->] & Hin).
    done.
  - intros Hk. rewrite lookup_union_r; [done|].
    apply not_elem_of_list_to_map_1. by rewrite Hsets.
Qed.

Lemma load_data_file_wins_witness :
  let w := {| submissions_by_day := {[ "2024-01-01" := {[9]}; "2023-12-31" := {[4]} ]};
              data_file := Some (JObject [("2024-01-01", JInts [1; 2])]);
              trace := [] |} in
  submissions_by_day (load_data w).2 !! "2024-01-01" = Some (list_to_set [1; 2])
  ∧ submissions_by_day (load_data w).2 !! "2023-12-31" = Some {[4]}.
Proof.
  cbv zeta.
  match goal with |- context [load_data ?w] =>
    pose proof (load_data_file_wins w [("2024-01-01", JInts [1; 2])]
                  eq_refl eq_refl) as H
  end.
  assert (Hnd : NoDup [("2024-01-01", JInts [1; 2])].*1)
    by (apply NoDup_singleton).
  split.
  - apply (H Hnd "2024-01-01"). by left.
  - destruct (H Hnd "2023-12-31") as [_ Hother]. rewrite Hother; [reflexivity|].
    simpl. intros Hin. apply list_elem_of_singleton in Hin. discriminate.
Defined.

Lemma load_save_document_witness :
  let items := [("2024-01-01", JInts [1; 2]); ("2024-01-02", JInts [5; 6; 7])] in
  disk Sample.jan2 = IoOk
  ∧ ∃ items',
      data_file
        (save_data Sample.jan2
           (load_data {| submissions_by_day := ∅; data_file := Some (JObject items);
                         trace := [] |}).2).2
      = Some (JObject items')
      ∧ items' ≡ₚ items.
Proof.
  cbv zeta. split; [reflexivity|].
  apply (load_save_document Sample.jan2); [reflexivity | |].
  - simpl. apply NoDup_cons. split; [|apply NoDup_singleton].
    intros Hin. apply list_elem_of_singleton in Hin. discriminate.
  - intros k v Hin. apply elem_of_cons in Hin as [[= -> ->]|Hin].
    + exists [1; 2]. split; [done|]. repeat constructor.
    + apply list_elem_of_singleton in Hin as [= -> ->].
      exists [5; 6; 7]. split; [done|]. repeat constructor.
Defined.

(** ** Saving *)

(** X6. A save whose [open] fails does not raise and is logged; it changes
    neither the ledger nor the file, so a process started afterwards still
    loads the ledger of the last save that went through. *)
Theorem failed_open_keeps_last_save (e : env) (w : world)
    (saved : gmap string (gset Z)) :
  disk e = IoOpenError →
  data_file w = Some (JObject (serializable saved)) →
  let w' := (save_data e w).2 in
  let fresh := {| submissions_by_day := ∅; data_file := data_file w'; trace := [] |} in
  (save_data e w).1 = Returned tt
  ∧ submissions_by_day w' = submissions_by_day w
  ∧ data_file w' = data_file w
  ∧ trace w' = (trace w ++ [Save; Logged LogSaveFailed])%list
  ∧ submissions_by_day (load_data fresh).2 = saved.
Proof.
  intros Hdisk Hfile w' fresh. subst fresh w'.
  rewrite save_data_run, Hdisk. cbn [fst snd submissions_by_day data_file trace].
  repeat (split; [done|]).
  rewrite load_data_run, Hfile. cbn [snd data_file submissions_by_day].
  apply store_all_serializable. by left.
Qed.

Lemma failed_open_keeps_last_save_witness :
  let e := {| CHANNEL_ID := 10; bot_user := 99; _today_key := "2024-01-02";
              disk := IoOpenError; send_result := λ _, SendOk;
              channel_resolved := true |} in
  let w := {| submissions_by_day := {[ "2024-01-01" := {[1; 2; 3]} ]};
              data_file := Some (JObject (serializable {[ "2024-01-01" := {[1; 2]} ]}));
              trace := [] |} in
  submissions_by_day
    (load_data {| submissions_by_day := ∅; data_file := data_file (save_data e w).2;
                  trace := [] |}).2
  = {[ "2024-01-01" := {[1; 2]} ]}.
Proof.
  cbv zeta.
  match goal with |- context [save_data ?e ?w] =>
    destruct (failed_open_keeps_last_save e w {[ "2024-01-01" := {[1; 2]} ]})
      as (_ & _ & _ & _ & H); [reflexivity | reflexivity | exact H]
  end.
Defined.

(** X7. A restart keeps the history: after a save that went through, the end
    of [on_ready] in a fresh process, on whatever day, gives the saved ledger
    with an entry for that day, empty unless the ledger had one. *)
Theorem restart_keeps_history (e e' : env) (w : world) :
  disk e = IoOk →
  let fresh := {| submissions_by_day := ∅; data_file := data_file (save_data e w).2;
                  trace := [] |} in
  (on_ready_load e' fresh).1 = Returned tt
  ∧ submissions_by_day (on_ready_load e' fresh).2
    = dict_setdefault (_today_key e') ∅ (submissions_by_day w)
  ∧ (∀ k s, submissions_by_day w !! k = Some s →
            submissions_by_day (on_ready_load e' fresh).2 !! k = Some s).
Proof.
  intros Hdisk fresh. subst fresh. rewrite save_data_run, Hdisk.
  cbn [snd data_file]. unfold on_ready_load, bind.
  rewrite load_data_run. cbn [data_file submissions_by_day].
  unfold modify_ledger. cbn [fst snd submissions_by_day].
  rewrite store_all_serializable by (by left).
  split; [done|]. split; [done|]. intros k s. apply lookup_setdefault_Some.
Qed.

Lemma restart_keeps_history_witness :
  let fresh := {| submissions_by_day := ∅;
                  data_file := data_file (save_data Sample.jan2 Sample.busy_day).2;
                  trace := [] |} in
  submissions_by_day (on_ready_load Sample.jan2 fresh).2
  = dict_setdefault "2024-01-02" ∅ (submissions_by_day Sample.busy_day).
Proof.
  cbv zeta.
  destruct (restart_keeps_history Sample.jan2 Sample.jan2 Sample.busy_day)
    as (_ & H & _); [reflexivity | exact H].
Defined.

(** ** The heartbeat over many ticks *)

Lemma heartbeat_loop_cons (e : env) (rest : list env) (last_day : string) (w : world) :
  heartbeat_loop (e :: rest) last_day w
  = heartbeat_loop rest
      (if decide (_today_key e ≠ last_day) then _today_key e else last_day)
      (heartbeat_tick e last_day w).2.
Proof.
  cbn [heartbeat_loop]. unfold bind. rewrite heartbeat_tick_run.
  by destruct (decide (_today_key e ≠ last_day)).
Qed.

Lemma heartbeat_remembered (e : env) (last_day : string) :
  (if decide (_today_key e ≠ last_day) then _today_key e else last_day) = _today_key e.
Proof.
  destruct (decide (_today_key e ≠ last_day)) as [H|H]; [done|].
  destruct (decide (_today_key e = last_day)) as [Heq|Hne]; [done | by destruct H].
Qed.

(** X8. All the heartbeat loop ever does to the ledger is to add empty
    entries for Day Keys it has read: every key has the entry it had before
    the loop, or had none and has an empty one now. *)
Theorem heartbeat_only_adds_empty_days (ticks : list env) (last_day : string)
    (w : world) (k : string) :
  let w' := (heartbeat_loop ticks last_day w).2 in
  submissions_by_day w' !! k = submissions_by_day w !! k
  ∨ (submissions_by_day w !! k = None
     ∧ submissions_by_day w' !! k = Some ∅
     ∧ ∃ e, e ∈ ticks ∧ _today_key e = k).
Proof.
  cbv zeta. revert last_day w. induction ticks as [|e rest IH]; intros last_day w.
  - by left.
  - rewrite heartbeat_loop_cons.
    set (w1 := (heartbeat_tick e last_day w).2).
    assert (Htick : submissions_by_day w1 !! k = submissions_by_day w !! k
                    ∨ (submissions_by_day w !! k = None
                       ∧ submissions_by_day w1 !! k = Some ∅ ∧ _today_key e = k)).
    { subst w1. rewrite heartbeat_tick_run.
      destruct (decide (_today_key e ≠ last_day)); cbn; [|by left].
      destruct (decide (k = _today_key e)) as [->|Hk].
      - rewrite lookup_setdefault_eq.
        destruct (submissions_by_day w !! _today_key e) eqn:Hd; simpl;
          [by left | by right].
      - left. by apply lookup_setdefault_ne. }
    destruct (IH (if decide (_today_key e ≠ last_day) then _today_key e else last_day) w1)
      as [Hsame | (Hnone & Hnew & e' & He' & Hk)].
    + rewrite Hsame. destruct Htick as [?|(? & ? & ?)]; [by left|].
      right. split; [done|]. split; [done|]. exists e. split; [by left | done].
    + destruct Htick as [Heq|(_ & Hsome & _)]; [|congruence].
      right. split; [congruence|]. split; [done|].
      exists e'. split; [by right | done].
Qed.

Lemma last_cons_default {A} (l : list A) (x d : A) :
  List.last (x :: l) d = List.last l x.
Proof.
  revert x d. induction l as [|y l IH]; intros x d; [done|].
  change (List.last (x :: y :: l) d) with (List.last (y :: l) d).
  rewrite IH. symmetry. apply IH.
Qed.

(** X9. Every Day Key that the heartbeat reads and that differs from the one
    it started with has an entry in the ledger when the loop is left, and the
    loop remembers the last key it read. *)
Theorem heartbeat_loop_observed (ticks : list env) (last_day : string) (w : world) :
  (heartbeat_loop ticks last_day w).1
  = Returned (List.last (_today_key <$> ticks) last_day)
  ∧ ∀ e, e ∈ ticks → _today_key e ≠ last_day →
         is_Some (submissions_by_day (heartbeat_loop ticks last_day w).2
                  !! _today_key e).
Proof.
  revert last_day w. induction ticks as [|e rest IH]; intros last_day w.
  - split; [done|]. intros e He. by apply elem_of_nil in He.
  - rewrite heartbeat_loop_cons, heartbeat_remembered.
    destruct (IH (_today_key e) (heartbeat_tick e last_day w).2) as [Hret Hobs].
    split.
    + by rewrite Hret, fmap_cons, last_cons_default.
    + intros e' He' Hne.
      destruct (decide (_today_key e' = _today_key e)) as [Heq|Hother].
      * assert (is_Some (submissions_by_day (heartbeat_tick e last_day w).2
                         !! _today_key e')) as [s Hs].
        { rewrite heartbeat_tick_run, decide_True by congruence. cbn.
          rewrite Heq, lookup_setdefault_eq. by eexists. }
        exists s.
        by apply (heartbeat_loop_keeps rest (_today_key e)
                    (heartbeat_tick e last_day w).2).
      * apply elem_of_cons in He' as [->|He']; [done|]. by apply Hobs.
Qed.

Lemma heartbeat_loop_observed_witness :
  let jan3 := {| CHANNEL_ID := 10; bot_user := 99; _today_key := "2024-01-03";
                 disk := IoOk; send_result := λ _, SendOk;
                 channel_resolved := true |} in
  let w' := (heartbeat_loop [Sample.jan2; Sample.jan2; jan3] "2024-01-01"
               Sample.after_jan1).2 in
  is_Some (submissions_by_day w' !! "2024-01-02")
  ∧ is_Some (submissions_by_day w' !! "2024-01-03").
Proof.
  cbv zeta.
  match goal with |- context [heartbeat_loop ?ticks ?last ?w] =>
    destruct (heartbeat_loop_observed ticks last w) as [_ H]
  end.
  split.
  - apply (H Sample.jan2); [by left | discriminate].
  - match goal with |- context [heartbeat_loop [_; _; ?e3]] =>
      apply (H e3); [by right; right; left | discriminate]
    end.
Defined.

(** X10. While the Day Key stays the one the heartbeat remembers, the loop
    writes nothing: the ledger and the file are untouched, [save_data] is
    never called, and each tick leaves one heartbeat record in the log. *)
Theorem heartbeat_same_day_is_quiet (ticks : list env) (last_day : string) (w : world) :
  (∀ e, e ∈ ticks → _today_key e = last_day) →
  let w' := (heartbeat_loop ticks last_day w).2 in
  submissions_by_day w' = submissions_by_day w
  ∧ data_file w' = data_file w
  ∧ trace w' =
    (trace w ++
     ((λ e, Logged (LogHeartbeat last_day
                      (size (dict_get last_day (submissions_by_day w)))
                      (channel_resolved e))) <$> ticks))%list.
Proof.
  revert w. induction ticks as [|e rest IH]; intros w Hsame; cbv zeta.
  - simpl. by rewrite app_nil_r.
  - rewrite heartbeat_loop_cons, heartbeat_remembered.
    assert (He : _today_key e = last_day) by (apply Hsame; by left).
    assert (Hrest : ∀ e', e' ∈ rest → _today_key e' = last_day)
      by (intros e' He'; apply Hsame; by right).
    rewrite He. specialize (IH (heartbeat_tick e last_day w).2 Hrest). cbv zeta in IH.
    destruct IH as (Hl & Hf & Ht). rewrite Hl, Hf, Ht.
    rewrite heartbeat_tick_run, decide_False by (by intros ?).
    cbn [snd submissions_by_day data_file trace]. rewrite He.
    split; [done|]. split; [done|]. by rewrite <- app_assoc.
Qed.

Lemma heartbeat_same_day_is_quiet_witness :
  let w' := (heartbeat_loop [Sample.jan2; Sample.jan2] "2024-01-02" Sample.busy_day).2 in
  submissions_by_day w' = submissions_by_day Sample.busy_day
  ∧ data_file w' = None.
Proof.
  cbv zeta.
  destruct (heartbeat_same_day_is_quiet [Sample.jan2; Sample.jan2] "2024-01-02"
              Sample.busy_day) as (Hl & Hf & _).
  - intros e He. apply elem_of_cons in He as [->|He]; [reflexivity|].
    apply list_elem_of_singleton in He as ->. reflexivity.
  - split; [exact Hl | exact Hf].
Defined.

(** ** Commands *)

Lemma report_submissions_world (e : env) (ctx : context) (w : world) :
  submissions_by_day (report_submissions e ctx w).2 = submissions_by_day w
  ∧ data_file (report_submissions e ctx w).2 = data_file w
  ∧ (trace (report_submissions e ctx w).2 = trace w
     ∨ ∃ p, trace (report_submissions e ctx w).2
            = (trace w ++ [Send (ctx_channel ctx) p])%list).
Proof.
  destruct (decide (ctx_channel ctx = CHANNEL_ID e)) as [Hc|Hc].
  - rewrite report_submissions_run by done. cbn. repeat split; try done.
    right. by eexists.
  - unfold report_submissions. rewrite decide_True by done. cbn. auto.
Qed.

Lemma report_not_submitted_world (e : env) (ctx : context) (w : world) :
  submissions_by_day (report_not_submitted e ctx w).2 = submissions_by_day w
  ∧ data_file (report_not_submitted e ctx w).2 = data_file w
  ∧ (trace (report_not_submitted e ctx w).2 = trace w
     ∨ ∃ p, trace (report_not_submitted e ctx w).2
            = (trace w ++ [Send (ctx_channel ctx) p])%list).
Proof.
  destruct (decide (ctx_channel ctx = CHANNEL_ID e)) as [Hc|Hc].
  - rewrite report_not_submitted_run by done. cbn. repeat split; try done.
    right. by eexists.
  - unfold report_not_submitted. rewrite decide_True by done. cbn. auto.
Qed.

Lemma daily_report_world (e : env) (ctx : context) (w : world) :
  submissions_by_day (daily_report e ctx w).2 = submissions_by_day w
  ∧ data_file (daily_report e ctx w).2 = data_file w
  ∧ (trace (daily_report e ctx w).2 = trace w
     ∨ ∃ p, trace (daily_report e ctx w).2
            = (trace w ++ [Send (ctx_channel ctx) p])%list).
Proof.
  destruct (decide (ctx_channel ctx = CHANNEL_ID e)) as [Hc|Hc].
  - rewrite daily_report_run by done. cbn. repeat split; try done.
    right. by eexists.
  - unfold daily_report. rewrite decide_True by done. cbn. auto.
Qed.

(** X11. Outside the target channel the four commands do nothing at all:
    they return, send nothing, and leave the ledger, the file and the trace
    as they were, an administrator's [clear_submissions] included. *)
Theorem commands_ignored_elsewhere (e : env) (ctx : context) (w : world) :
  ctx_channel ctx ≠ CHANNEL_ID e →
  report_submissions e ctx w = (Returned tt, w)
  ∧ report_not_submitted e ctx w = (Returned tt, w)
  ∧ daily_report e ctx w = (Returned tt, w)
  ∧ clear_submissions e ctx w = (Returned tt, w).
Proof.
  intros Hc.
  unfold report_submissions, report_not_submitted, daily_report, clear_submissions.
  by rewrite !decide_True by done.
Qed.

Lemma commands_ignored_elsewhere_witness :
  let ctx := {| ctx_channel := 55; ctx_guild := Sample.team;
                ctx_administrator := true |} in
  clear_submissions Sample.jan2 ctx Sample.busy_day = (Returned tt, Sample.busy_day)
  ∧ daily_report Sample.jan2 ctx Sample.busy_day = (Returned tt, Sample.busy_day).
Proof.
  cbv zeta.
  match goal with |- context [clear_submissions ?e ?ctx ?w] =>
    destruct (commands_ignored_elsewhere e ctx w) as (_ & _ & Hd & Hc);
      [discriminate | split; [exact Hc | exact Hd]]
  end.
Defined.

(** X12. The three report commands only read: wherever and by whomever they
    are invoked, the ledger and the file are unchanged, [save_data] is not
    called, and at most one message is sent, to the channel of the
    invocation. *)
Theorem reports_only_read (e : env) (ctx : context) (w : world) :
  let only_read (w' : world) : Prop :=
    submissions_by_day w' = submissions_by_day w
    ∧ data_file w' = data_file w
    ∧ (trace w' = trace w
       ∨ ∃ p, trace w' = (trace w ++ [Send (ctx_channel ctx) p])%list) in
  only_read (report_submissions e ctx w).2
  ∧ only_read (report_not_submitted e ctx w).2
  ∧ only_read (daily_report e ctx w).2.
Proof.
  cbv zeta. split; [|split].
  - apply report_submissions_world.
  - apply report_not_submitted_world.
  - apply daily_report_world.
Qed.

(** ** Counting the roster *)

Lemma size_list_to_set_le (l : list Z) :
  (size (list_to_set l : gset Z) ≤ List.length l)%nat.
Proof.
  induction l as [|x l IH].
  - rewrite list_to_set_nil, size_empty. simpl. lia.
  - rewrite list_to_set_cons, size_union_alt, size_singleton. simpl.
    assert (size (list_to_set l ∖ {[x]} : gset Z) ≤ size (list_to_set l : gset Z))%nat.
    { apply subseteq_size. intros y. rewrite elem_of_difference. tauto. }
    lia.
Qed.

(** X13. The two sets of the partition add up to the roster: the numbers of
    submitted and of pending members, which the reports print, sum to the
    number of distinct non-bot member ids, and that is at most the length of
    the member list. *)
Theorem partition_counts (e : env) (d : gmap string (gset Z)) (g : guild) :
  let sets := _get_today_sets e d g in
  (size sets.1 + size sets.2 = size (member_ids g))%nat
  ∧ (size (member_ids g) ≤ List.length (members g))%nat.
Proof.
  cbv zeta. unfold _get_today_sets. cbn [fst snd]. split.
  - rewrite <- size_union.
    + f_equal. apply set_eq. intros x.
      rewrite elem_of_union, elem_of_difference, elem_of_intersection.
      destruct (decide (x ∈ dict_get (_today_key e) d)); tauto.
    + intros x. rewrite elem_of_difference, elem_of_intersection. tauto.
  - unfold member_ids.
    etrans; [apply size_list_to_set_le|].
    rewrite length_fmap. apply List.filter_length_le.
Qed.

(** X14. When today's key has no entry, or an empty one, nobody counts as
    submitted and every non-bot member is pending; this is what the reports
    see right after an administrator's clear, so [submissions] then answers
    with its no-submissions text. *)
Theorem nobody_submitted (e : env) (ctx admin : context) (w : world) :
  let g := ctx_guild ctx in
  (dict_get (_today_key e) (submissions_by_day w) = ∅ →
   _get_today_sets e (submissions_by_day w) g = (∅, member_ids g))
  ∧ (ctx_channel ctx = CHANNEL_ID e →
     ctx_channel admin = CHANNEL_ID e → ctx_administrator admin = true →
     let cleared := (clear_submissions e admin w).2 in
     _get_today_sets e (submissions_by_day cleared) g = (∅, member_ids g)
     ∧ trace (report_submissions e ctx cleared).2
       = (trace cleared
          ++ [Send (ctx_channel ctx) (Text "❌ No submissions received today.")])%list).
Proof.
  intros g.
  assert (Hempty : ∀ d, dict_get (_today_key e) d = ∅ →
                        _get_today_sets e d g = (∅, member_ids g)).
  { intros d Hd. unfold _get_today_sets. rewrite Hd. f_equal.
    - apply set_eq. intros x. rewrite elem_of_intersection, elem_of_empty. tauto.
    - apply set_eq. intros x.
      rewrite elem_of_difference, elem_of_intersection, elem_of_empty. tauto. }
  split; [apply Hempty|].
  intros Hc Hac Had cleared.
  assert (Hsets : _get_today_sets e (submissions_by_day cleared) g = (∅, member_ids g)).
  { apply Hempty. subst cleared. rewrite clear_granted_ledger by done.
    unfold dict_get. by rewrite lookup_insert_eq. }
  split; [done|].
  rewrite report_submissions_run by done. cbn [trace]. fold g. rewrite Hsets.
  cbn [fst]. by rewrite decide_True.
Qed.

Lemma nobody_submitted_witness :
  let cleared := (clear_submissions Sample.jan2 Sample.admin_ctx Sample.busy_day).2 in
  dict_get "2024-01-02" (submissions_by_day Sample.busy_day) = {[5; 6; 7]}
  ∧ _get_today_sets Sample.jan2 (submissions_by_day cleared) Sample.team
    = (∅, member_ids Sample.team)
  ∧ trace (report_submissions Sample.jan2 Sample.team_ctx cleared).2
    = (trace cleared ++ [Send 10 (Text "❌ No submissions received today.")])%list.
Proof.
  cbv zeta. split; [reflexivity|].
  destruct (nobody_submitted Sample.jan2 Sample.team_ctx Sample.admin_ctx Sample.busy_day)
    as [_ H].
  destruct H as [Hsets Htrace]; [reflexivity | reflexivity | reflexivity |].
  split; [exact Hsets | exact Htrace].
Defined.

(** ** The message handler, case by case *)

(** With the command dispatch put back: the bot's own message ends the
    handler at once, an exception ends it where it is raised, and otherwise
    the dispatch runs on the world that the handler's own logic leaves. *)
Lemma on_message_dispatch (e : env) (process_commands : M unit) (m : message)
    (w : world) :
  on_message e process_commands m w =
  if decide (user_id (author m) = bot_user e) then (Returned tt, w)
  else match on_message e (ret tt) m w with
       | (Returned _, w1) => process_commands w1
       | (Raised x, w1) => (Raised x, w1)
       end.
Proof.
  unfold on_message. destruct (decide (user_id (author m) = bot_user e)); [done|].
  set (probe := if PyStr.startswith (content m) "!test" then _ else _).
  set (body := if spreadsheet_detected m then _ else _).
  unfold bind, ret. destruct (probe w) as [[[]|x] w0]; [|done].
  by destruct (body w0) as [[[]|x] w1].
Qed.

(** What the handler's own logic leaves behind. *)
Lemma on_message_logic_world (e : env) (m : message) (w : world) :
  let w' := (on_message e (ret tt) m w).2 in
  submissions_by_day w'
  = (if reaches_record e m
     then record (_today_key e) (user_id (author m)) (submissions_by_day w)
     else submissions_by_day w)
  ∧ data_file w'
    = (if reaches_record e m
       then match disk e with
            | IoOk => Some (JObject (serializable
                        (record (_today_key e) (user_id (author m))
                                (submissions_by_day w))))
            | IoOpenError => data_file w
            | IoWriteError => Some Unparsable
            end
       else data_file w)
  ∧ (Save ∈ trace w' ↔ Save ∈ trace w ∨ reaches_record e m = true).
Proof.
  cbv zeta. unfold on_message, reaches_record.
  destruct (decide (user_id (author m) = bot_user e)) as [Hown|Hother].
  - rewrite bool_decide_eq_true_2 by done. cbn. naive_solver.
  - rewrite bool_decide_eq_false_2 by done. cbn [negb andb].
    unfold record_submission, send.
    destruct (PyStr.startswith (content m) "!test") eqn:Hprobe;
      destruct (send_result e (channel m)) eqn:Hsend;
      destruct (spreadsheet_detected m) eqn:Hdet;
      cbn [negb orb andb];
      unfold bind, emit, ret, raise, modify_ledger, except_forbidden, send;
      rewrite ?Hsend; cbn [fst snd];
      rewrite ?save_data_run; cbn [fst snd submissions_by_day data_file trace];
      rewrite ?Hsend; cbn [fst snd submissions_by_day data_file trace];
      (split; [done|]); (split; [done|]);
      rewrite ?elem_of_app, ?elem_of_cons, ?elem_of_nil;
      destruct (disk e); rewrite ?elem_of_cons, ?elem_of_nil; naive_solver.
Qed.

Lemma on_message_hands_over (e : env) (process_commands : M unit) (m : message)
    (w : world) :
  on_message e process_commands m w = process_commands (on_message e (ret tt) m w).2
  ∨ (on_message e process_commands m w).2 = (on_message e (ret tt) m w).2.
Proof.
  rewrite (on_message_dispatch e process_commands).
  destruct (decide (user_id (author m) = bot_user e)) as [Hown|Hother].
  - right. unfold on_message. by rewrite decide_True.
  - destruct (on_message e (ret tt) m w) as [[[]|x] w1]; [by left | by right].
Qed.

(** X15. A message that is the bot's own is dropped at once, before the
    detector and before the command dispatch.  A message that the detector
    rejects changes neither the ledger nor the file and calls no
    [save_data]; the dispatch, if it runs, runs on that world. *)
Theorem on_message_without_submission (e : env) (process_commands : M unit)
    (m : message) (w : world) :
  (user_id (author m) = bot_user e →
   on_message e process_commands m w = (Returned tt, w))
  ∧ (spreadsheet_detected m = false →
     let w1 := (on_message e (ret tt) m w).2 in
     submissions_by_day w1 = submissions_by_day w
     ∧ data_file w1 = data_file w
     ∧ (Save ∈ trace w1 → Save ∈ trace w)
     ∧ (on_message e process_commands m w = process_commands w1
        ∨ (on_message e process_commands m w).2 = w1)).
Proof.
  split.
  - intros Hown. unfold on_message. by rewrite decide_True.
  - intros Hdet w1. subst w1.
    destruct (on_message_logic_world e m w) as (Hl & Hf & Hs).
    assert (Hno : reaches_record e m = false).
    { unfold reaches_record. rewrite Hdet. apply andb_false_r. }
    rewrite Hno in Hl, Hf, Hs.
    split; [done|]. split; [done|]. split; [|apply on_message_hands_over].
    intros Hin. apply Hs in Hin as [?|?]; [done | discriminate].
Qed.

Lemma on_message_without_submission_witness :
  let chat := {| author := Sample.alice; channel := 10; content := "hello team";
                 attachments := [ {| filename := "notes.pdf" |} ] |} in
  let own := {| author := {| user_id := 99; user_name := "tracker"; mention := "<@99>" |};
                channel := 10; content := "see drive.google.com/x";
                attachments := [] |} in
  on_message Sample.jan2 (clear_submissions Sample.jan2 Sample.admin_ctx) own
    Sample.busy_day
  = (Returned tt, Sample.busy_day)
  ∧ submissions_by_day (on_message Sample.jan2 (ret tt) chat Sample.busy_day).2
    = submissions_by_day Sample.busy_day.
Proof.
  cbv zeta. split.
  - match goal with |- on_message ?e ?pc ?m ?w = _ =>
      destruct (on_message_without_submission e pc m w) as [H _];
        apply H; reflexivity
    end.
  - match goal with |- context [on_message ?e ?pc ?m ?w] =>
      destruct (on_message_without_submission e pc m w) as [_ H];
        destruct H as (Hl & _); [reflexivity | exact Hl]
    end.
Defined.

(** X16. Whatever the message, the handler's own logic adds nobody but the
    author, removes nobody, and touches no day but today. *)
Theorem on_message_frame (e : env) (m : message) (w : world) :
  let w1 := (on_message e (ret tt) m w).2 in
  let today := _today_key e in
  (∀ k, k ≠ today → submissions_by_day w1 !! k = submissions_by_day w !! k)
  ∧ dict_get today (submissions_by_day w) ⊆ dict_get today (submissions_by_day w1)
  ∧ dict_get today (submissions_by_day w1)
    ⊆ dict_get today (submissions_by_day w) ∪ {[user_id (author m)]}
  ∧ (∀ process_commands,
       on_message e process_commands m w = process_commands w1
       ∨ (on_message e process_commands m w).2 = w1).
Proof.
  cbv zeta. destruct (on_message_logic_world e m w) as (Hl & _ & _).
  rewrite Hl. destruct (reaches_record e m).
  - split; [|split; [|split]].
    + intros k Hk. by rewrite lookup_record, decide_False.
    + rewrite dict_get_record, decide_True by done. apply union_subseteq_l.
    + by rewrite dict_get_record, decide_True.
    + intros pc. apply on_message_hands_over.
  - split; [done|]. split; [done|]. split; [apply union_subseteq_l|].
    intros pc. apply on_message_hands_over.
Qed.

(** X17. From posting to report: a member who is no bot posts, in any
    channel, a message that the detector accepts (with no [!test] probe in
    front, or with a probe whose reply goes through).  Then the partition
    counts the member as submitted and not as pending, whether the save and
    the confirmation succeed or not, and unless the confirmation fails with
    an error other than [Forbidden] the command dispatch runs on that
    world. *)
Theorem posted_means_submitted (e : env) (process_commands : M unit) (m : message)
    (w : world) (g : guild) (who : member) :
  user_id (author m) ≠ bot_user e →
  spreadsheet_detected m = true →
  (PyStr.startswith (content m) "!test" = true → send_result e (channel m) = SendOk) →
  who ∈ members g → bot who = false → member_id who = user_id (author m) →
  let w1 := (on_message e (ret tt) m w).2 in
  let sets := _get_today_sets e (submissions_by_day w1) g in
  user_id (author m) ∈ sets.1
  ∧ user_id (author m) ∉ sets.2
  ∧ (send_result e (channel m) ≠ SendHTTPError →
     on_message e process_commands m w = process_commands w1).
Proof.
  intros Hother Hdet Hprobe Hwho Hbot Hid w1 sets. subst sets w1.
  assert (Hreach : reaches_record e m = true).
  { unfold reaches_record. rewrite bool_decide_eq_false_2, Hdet by done.
    destruct (PyStr.startswith (content m) "!test"); [|done].
    by rewrite Hprobe. }
  destruct (on_message_logic_world e m w) as (Hl & _ & _). rewrite Hreach in Hl.
  assert (Hin : user_id (author m) ∈ (_get_today_sets e
                  (submissions_by_day (on_message e (ret tt) m w).2) g).1).
  { unfold _get_today_sets. cbn [fst]. rewrite Hl. apply elem_of_intersection. split.
    - rewrite dict_get_record, decide_True by done.
      apply elem_of_union_r. by apply elem_of_singleton.
    - apply elem_of_member_ids. by exists who. }
  split; [done|]. split.
  - unfold _get_today_sets in *. cbn [fst snd] in *.
    rewrite elem_of_difference. tauto.
  - intros Hsend. rewrite (on_message_dispatch e process_commands).
    rewrite decide_False by done.
    destruct (on_message_records e (ret tt) m w Hother Hdet Hprobe)
      as (w1 & _ & _ & _ & _ & Hrun).
    rewrite Hrun. by destruct (send_result e (channel m)).
Qed.

Lemma posted_means_submitted_witness :
  let e := {| CHANNEL_ID := 10; bot_user := 99; _today_key := "2024-01-02";
              disk := IoOpenError; send_result := λ _, SendForbidden;
              channel_resolved := true |} in
  let m := {| author := {| user_id := 2; user_name := "bob"; mention := "<@2>" |};
              channel := 55; content := "my sheet";
              attachments := [ {| filename := "bob.xlsx" |} ] |} in
  let sets := _get_today_sets e
                (submissions_by_day (on_message e (ret tt) m Sample.two_in).2)
                Sample.team in
  2 ∈ sets.1 ∧ 2 ∉ sets.2.
Proof.
  cbv zeta.
  match goal with |- context [on_message ?e ?pc ?m ?w] =>
    destruct (posted_means_submitted e pc m w Sample.team
                {| member_id := 2; bot := false; display_name := "Bob" |})
      as (Hin & Hout & _)
  end; try reflexivity.
  - discriminate.
  - discriminate.
  - right. left.
  - split; [exact Hin | exact Hout].
Defined.

(** ** Every change of the ledger reaches the file *)

(** X18. As long as the disk takes the writes, the file keeps up with the
    ledger: if the file holds what [save_data] would write before a message,
    a command or a heartbeat tick, it does so afterwards. *)
Theorem mutations_are_saved (e : env) (w : world) :
  disk e = IoOk →
  synced w →
  (∀ m, synced (on_message e (ret tt) m w).2)
  ∧ (∀ ctx, synced (clear_submissions e ctx w).2
            ∧ synced (report_submissions e ctx w).2
            ∧ synced (report_not_submitted e ctx w).2
            ∧ synced (daily_report e ctx w).2)
  ∧ (∀ last_day, synced (heartbeat_tick e last_day w).2).
Proof.
  intros Hdisk Hsync. unfold synced in *. split; [|split].
  - intros m. destruct (on_message_logic_world e m w) as (Hl & Hf & _).
    rewrite Hl, Hf, Hdisk. by destruct (reaches_record e m).
  - intros ctx. split; [|split; [|split]].
    + destruct (decide (ctx_channel ctx = CHANNEL_ID e)) as [Hc|Hc];
        [|by rewrite clear_elsewhere].
      destruct (ctx_administrator ctx) eqn:Ha.
      * rewrite clear_granted by done. rewrite send_run, save_data_run, Hdisk. done.
      * by rewrite clear_denied.
    + destruct (report_submissions_world e ctx w) as (-> & -> & _). done.
    + destruct (report_not_submitted_world e ctx w) as (-> & -> & _). done.
    + destruct (daily_report_world e ctx w) as (-> & -> & _). done.
  - intros last_day. rewrite heartbeat_tick_run.
    destruct (decide (_today_key e ≠ last_day)); cbn; [by rewrite Hdisk | done].
Qed.

Lemma mutations_are_saved_witness :
  synced Sample.after_jan1
  ∧ synced (on_message Sample.jan2 (ret tt) Sample.csv_message Sample.after_jan1).2
  ∧ synced (heartbeat_tick Sample.jan2 "2024-01-01" Sample.after_jan1).2.
Proof.
  assert (Hs : synced Sample.after_jan1) by (vm_compute; reflexivity).
  destruct (mutations_are_saved Sample.jan2 Sample.after_jan1 eq_refl Hs)
    as (Hm & _ & Hh).
  split; [exact Hs|]. split; [apply Hm | apply Hh].
Defined.

(** ** Startup *)

Lemma on_ready_tasks (se : startup_env) (p : process) :
  tasks (on_ready se p).2
  = if decide ("heartbeat" ∈ tasks p) then tasks p
    else (tasks p ++ ["heartbeat"])%list.
Proof.
  unfold on_ready, start_health_server. cbn [_health_started tasks].
  destruct (_health_started p); [|destruct (site_starts se)]; cbn;
    try destruct (on_ready_load _ _) as [[[]|x] w']; done.
Qed.

Lemma on_ready_health (se : startup_env) (p : process) :
  _health_started (on_ready se p).2 = true
  ∧ health_sites (on_ready se p).2
    = (if _health_started p then health_sites p
       else if site_starts se then S (health_sites p) else health_sites p).
Proof.
  unfold on_ready, start_health_server. cbn [_health_started health_sites].
  destruct (_health_started p); [|destruct (site_starts se)]; cbn;
    try destruct (on_ready_load _ _) as [[[]|x] w']; done.
Qed.

(** X19. However often [on_ready] fires, and whether or not a run is cut
    short, a session without a heartbeat task gets exactly one. *)
Theorem heartbeat_spawned_once (runs : list startup_env) (p : process) :
  "heartbeat" ∉ tasks p →
  runs ≠ [] →
  tasks (on_ready_all runs p) = (tasks p ++ ["heartbeat"])%list.
Proof.
  intros Hnone Hruns. destruct runs as [|se rest]; [done|]. clear Hruns.
  unfold on_ready_all. cbn [foldl].
  assert (Hfirst : tasks (on_ready se p).2 = (tasks p ++ ["heartbeat"])%list)
    by (by rewrite on_ready_tasks, decide_False).
  rewrite <- Hfirst.
  assert (Hhas : "heartbeat" ∈ tasks (on_ready se p).2)
    by (rewrite Hfirst, elem_of_app, list_elem_of_singleton; by right).
  clear Hfirst Hnone. revert Hhas. generalize ((on_ready se p).2). clear p se.
  induction rest as [|se rest IH]; intros p Hhas; [done|].
  cbn [foldl].
  assert (Hkeep : tasks (on_ready se p).2 = tasks p)
    by (by rewrite on_ready_tasks, decide_True).
  rewrite IH; [done|]. by rewrite Hkeep.
Qed.

Lemma heartbeat_spawned_once_witness :
  let p := {| proc_world := Sample.after_jan1; _health_started := false;
              health_sites := 0; tasks := ["gateway"]; startup_log := [] |} in
  let up := {| startup_base := Sample.jan2; token_set := true; site_starts := true |} in
  let down := {| startup_base := Sample.jan2_muted; token_set := true;
                 site_starts := false |} in
  tasks (on_ready_all [down; up; up] p) = ["gateway"; "heartbeat"].
Proof.
  cbv zeta.
  match goal with |- tasks (on_ready_all ?runs ?p) = _ =>
    rewrite (heartbeat_spawned_once runs p); [reflexivity | | discriminate]
  end.
  simpl. intros Hin. apply list_elem_of_singleton in Hin. discriminate.
Defined.

(** X20. The health server gets one attempt per process: the first
    [on_ready] sets the flag before it tries, so if that attempt fails no
    later run tries again, and if it succeeds no later run starts a second
    site. *)
Theorem health_server_one_attempt (se : startup_env) (rest : list startup_env)
    (p : process) :
  _health_started p = false →
  let p' := on_ready_all (se :: rest) p in
  _health_started p' = true
  ∧ health_sites p'
    = (if site_starts se then S (health_sites p) else health_sites p).
Proof.
  intros Hflag. cbv zeta. unfold on_ready_all. cbn [foldl].
  destruct (on_ready_health se p) as [Hstarted Hsites]. rewrite Hflag in Hsites.
  rewrite <- Hsites. revert Hstarted. generalize ((on_ready se p).2).
  clear. induction rest as [|se rest IH]; intros p Hstarted; [done|].
  cbn [foldl]. destruct (on_ready_health se p) as [Hs' Hn']. rewrite Hstarted in Hn'.
  rewrite <- Hn'. by apply IH.
Qed.

Lemma health_server_one_attempt_witness :
  let p := {| proc_world := Sample.after_jan1; _health_started := false;
              health_sites := 0; tasks := []; startup_log := [] |} in
  let up := {| startup_base := Sample.jan2; token_set := true; site_starts := true |} in
  let down := {| startup_base := Sample.jan2; token_set := true; site_starts := false |} in
  health_sites (on_ready_all [down; up; up] p) = 0%nat
  ∧ health_sites (on_ready_all [up; up; down] p) = 1%nat.
Proof.
  cbv zeta. split.
  - match goal with |- health_sites (on_ready_all (?se :: ?rest) ?p) = _ =>
      destruct (health_server_one_attempt se rest p eq_refl) as [_ H]; exact H
    end.
  - match goal with |- health_sites (on_ready_all (?se :: ?rest) ?p) = _ =>
      destruct (health_server_one_attempt se rest p eq_refl) as [_ H]; exact H
    end.
Defined.

Lemma load_data_frame (w : world) :
  data_file (load_data w).2 = data_file w
  ∧ (Save ∈ trace (load_data w).2 → Save ∈ trace w).
Proof.
  rewrite load_data_run. cbn [snd].
  destruct w as [d [[| |items]|] t]; cbn; (split; [done|]); try done.
  all: rewrite elem_of_app, list_elem_of_singleton; intros [?|?]; [done|discriminate].
Qed.

Lemma load_data_ledger_of (w1 w2 : world) :
  submissions_by_day w1 = submissions_by_day w2 →
  data_file w1 = data_file w2 →
  submissions_by_day (load_data w1).2 = submissions_by_day (load_data w2).2.
Proof.
  intros Hl Hf. rewrite !load_data_run. cbn [snd]. rewrite Hf.
  destruct (data_file w2) as [[| |items]|]; cbn; by rewrite ?Hl.
Qed.

Lemma diagnostic_send_world (e : env) (w : world) :
  submissions_by_day (diagnostic_send e w) = submissions_by_day w
  ∧ data_file (diagnostic_send e w) = data_file w
  ∧ (Save ∈ trace (diagnostic_send e w) → Save ∈ trace w).
Proof.
  unfold diagnostic_send. destruct (channel_resolved e); [|done].
  rewrite send_run. cbn. split; [done|]. split; [done|].
  rewrite elem_of_app, list_elem_of_singleton. intros [?|?]; [done|discriminate].
Qed.

Lemma on_ready_load_world (e : env) (w : world) :
  on_ready_load e w = (Returned tt, (on_ready_load e w).2)
  ∧ submissions_by_day (on_ready_load e w).2
    = dict_setdefault (_today_key e) ∅ (submissions_by_day (load_data w).2)
  ∧ data_file (on_ready_load e w).2 = data_file w
  ∧ (Save ∈ trace (on_ready_load e w).2 → Save ∈ trace w).
Proof.
  unfold on_ready_load, bind. rewrite load_data_run_returns.
  unfold modify_ledger. cbn [fst snd submissions_by_day data_file trace].
  destruct (load_data_frame w) as [Hf Hs]. done.
Qed.

(** X21. When the health server is already up, or comes up, [on_ready] runs
    to its end whatever becomes of the diagnostic message: the ledger is the
    loaded one with an entry for today, and the file is not written, so a new
    entry for today is in memory only until the next save. *)
Theorem on_ready_completes (se : startup_env) (p : process) :
  _health_started p = true ∨ site_starts se = true →
  let e := startup_base se in
  let w' := proc_world (on_ready se p).2 in
  (on_ready se p).1 = Completed
  ∧ submissions_by_day w'
    = dict_setdefault (_today_key e) ∅ (submissions_by_day (load_data (proc_world p)).2)
  ∧ is_Some (submissions_by_day w' !! _today_key e)
  ∧ data_file w' = data_file (proc_world p)
  ∧ (Save ∈ trace w' → Save ∈ trace (proc_world p)).
Proof.
  intros Hup e w'. subst w' e.
  assert (Hstart : ∃ p2, start_health_server se
            {| proc_world := proc_world p; _health_started := _health_started p;
               health_sites := health_sites p;
               tasks := if decide ("heartbeat" ∈ tasks p) then tasks p
                        else (tasks p ++ ["heartbeat"])%list;
               startup_log :=
                 startup_log p ++
                 ((if token_set se then [] else [LogTokenMissing])
                  ++ (if decide (CHANNEL_ID (startup_base se) = 0)
                      then [LogChannelIdInvalid] else []))%list |}
            = (Completed, p2) ∧ proc_world p2 = proc_world p).
  { unfold start_health_server. cbn [_health_started].
    destruct (_health_started p); [by eexists|].
    destruct Hup as [?|Hsite]; [done|]. rewrite Hsite. by eexists. }
  destruct Hstart as (p2 & Hstart & Hworld).
  unfold on_ready. rewrite Hstart, Hworld.
  set (w1 := diagnostic_send (startup_base se) (proc_world p)).
  destruct (diagnostic_send_world (startup_base se) (proc_world p)) as (Hl & Hf & Hs).
  destruct (on_ready_load_world (startup_base se) w1) as (Hrun & Hl' & Hf' & Hs').
  rewrite Hrun. cbn [fst snd proc_world with_world].
  split; [done|]. split; [|split; [|split]].
  - rewrite Hl'. f_equal. by apply load_data_ledger_of.
  - rewrite Hl', lookup_setdefault_eq. by eexists.
  - by rewrite Hf'.
  - intros Hin. by apply Hs, Hs'.
Qed.

Lemma on_ready_completes_witness :
  let p := {| proc_world := {| submissions_by_day := ∅;
                               data_file := data_file Sample.after_jan1;
                               trace := [] |};
              _health_started := false; health_sites := 0; tasks := [];
              startup_log := [] |} in
  let se := {| startup_base := Sample.jan2_muted; token_set := true;
               site_starts := true |} in
  (on_ready se p).1 = Completed
  ∧ submissions_by_day (proc_world (on_ready se p).2) !! "2024-01-01" = Some {[1; 2]}
  ∧ submissions_by_day (proc_world (on_ready se p).2) !! "2024-01-02" = Some ∅
  ∧ data_file (proc_world (on_ready se p).2)
    = Some (JObject [("2024-01-01", JInts [1; 2])]).
Proof.
  cbv zeta.
  match goal with |- (on_ready ?se ?p).1 = _ ∧ _ =>
    destruct (on_ready_completes se p) as (Hdone & Hl & _ & Hf & _); [by right|]
  end.
  split; [exact Hdone|]. rewrite Hl, Hf. repeat split; vm_compute; reflexivity.
Defined.

(** X22. When the first attempt to start the health server fails, [on_ready]
    is left before the diagnostic message and before [load_data]: the world
    is untouched, so the history in the file is not in memory.  The flag is
    set all the same, and the next [on_ready] runs to its end. *)
Theorem on_ready_aborted_before_load (se next : startup_env) (p : process) :
  _health_started p = false →
  site_starts se = false →
  (on_ready se p).1 = Aborted
  ∧ proc_world (on_ready se p).2 = proc_world p
  ∧ _health_started (on_ready se p).2 = true
  ∧ health_sites (on_ready se p).2 = health_sites p
  ∧ (on_ready next (on_ready se p).2).1 = Completed.
Proof.
  intros Hflag Hsite.
  assert (Hrun : on_ready se p
    = (Aborted,
       {| proc_world := proc_world p; _health_started := true;
          health_sites := health_sites p;
          tasks := if decide ("heartbeat" ∈ tasks p) then tasks p
                   else (tasks p ++ ["heartbeat"])%list;
          startup_log :=
            startup_log p ++
            ((if token_set se then [] else [LogTokenMissing])
             ++ (if decide (CHANNEL_ID (startup_base se) = 0)
                 then [LogChannelIdInvalid] else []))%list |})).
  { unfold on_ready, start_health_server. cbn [_health_started].
    by rewrite Hflag, Hsite. }
  rewrite Hrun. cbn [fst snd proc_world _health_started health_sites].
  repeat (split; [done|]).
  unfold on_ready, start_health_server. cbn [_health_started].
  destruct (on_ready_load_world (startup_base next)
              (diagnostic_send (startup_base next) (proc_world p))) as (Hload & _).
  cbn [proc_world]. by rewrite Hload.
Qed.

Lemma on_ready_aborted_before_load_witness :
  let p := {| proc_world := {| submissions_by_day := ∅;
                               data_file := data_file Sample.after_jan1;
                               trace := [] |};
              _health_started := false; health_sites := 0; tasks := [];
              startup_log := [] |} in
  let down := {| startup_base := Sample.jan2; token_set := true;
                 site_starts := false |} in
  (on_ready down p).1 = Aborted
  ∧ submissions_by_day (proc_world (on_ready down p).2) = ∅.
Proof.
  cbv zeta.
  match goal with |- (on_ready ?se ?p).1 = _ ∧ _ =>
    destruct (on_ready_aborted_before_load se se p eq_refl eq_refl)
      as (Habort & Hworld & _)
  end.
  split; [exact Habort|]. by rewrite Hworld.
Defined.
